(** * The cleaning routine of the suicide-dataset dashboard ([app.py])

    The dashboard loads a CSV file with pandas, shows it, and passes it through
    [clean_dataset] (lines 99-120 of [app.py]).  This development embeds the
    pandas operations that routine uses as functions on an explicit table
    value, embeds [clean_dataset] and the two [load_data] definitions on top of
    them, and proves the properties the specification states about them.

    Conventions of the embedding:
    - column names and string cells are sequences of ASCII characters
      (Unicode case mapping is outside the model);
    - a cell is an integer, a float, a string or NaN (the missing marker): the
      kinds of cell [pd.read_csv] produces for the columns of this dataset.
      An integer cell is a Python integer, of any size: one of an [int64] or
      [uint64] column, or an object of a column of Python objects;
    - a float is named by a decimal, in a normal form: [Finite m e] is the
      binary64 nearest to [m * 10^e].  An integer turned into a float is
      rounded to 53 significant bits, ties to even, and raises
      [OverflowError] from [2^1024 - 2^970] on; [pd.to_numeric] returns
      floats as soon as an integer is outside [int64] and [uint64], or the
      integers fit neither together.  [str] refuses an integer of more than
      4300 digits, the default limit of Python on that conversion, with
      [ValueError];
    - a literal beyond the binary64 is read as no number.  A literal that is
      read as a float is read as the float nearest to the decimal it writes:
      for more than fifteen significant digits the reader of pandas may
      return a neighbouring float instead, and it judges the range of a
      literal by the exponent left after seventeen digits, where the model
      judges it by the value;
    - a Python exception is a value of [exn] returned in [result]. *)

From Stdlib Require Import ZArith String Ascii List DecimalString.
From Stdlib Require DecimalPos DecimalZ.
From stdpp Require Import base tactics option list strings gmap.

Local Open Scope string_scope.
Local Open Scope Z_scope.

(* ===================================================================== *)
(** ** Characters and strings *)
(* ===================================================================== *)

Module Str.

Definition code (c : ascii) : Z := Z.of_N (N_of_ascii c).

(** ASCII [A]..[Z]. *)
Definition is_upper (c : ascii) : bool := (65 <=? code c) && (code c <=? 90).

Definition is_digit (c : ascii) : bool := (48 <=? code c) && (code c <=? 57).

(** The characters C's [isspace] accepts in the default locale. *)
Definition is_space (c : ascii) : bool :=
  (code c =? 32) || ((9 <=? code c) && (code c <=? 13)).

Definition lower_char (c : ascii) : ascii :=
  if is_upper c then ascii_of_N (Z.to_N (code c + 32)) else c.

(** [s.lower()] *)
Fixpoint lower (s : string) : string :=
  match s with
  | EmptyString => EmptyString
  | String c s' => String (lower_char c) (lower s')
  end.

(** [s.replace(pat, repl)] for a one-character pattern, the only kind the
    program uses. *)
Fixpoint replace (pat : ascii) (repl : string) (s : string) : string :=
  match s with
  | EmptyString => EmptyString
  | String c s' =>
      if Ascii.eqb c pat then repl +:+ replace pat repl s'
      else String c (replace pat repl s')
  end.

(** [re.sub('[' + cls + ']', repl, s)]: every character of the class [cls]
    is replaced. *)
Fixpoint replace_class (cls : list ascii) (repl : string) (s : string) : string :=
  match s with
  | EmptyString => EmptyString
  | String c s' =>
      if existsb (Ascii.eqb c) cls then repl +:+ replace_class cls repl s'
      else String c (replace_class cls repl s')
  end.

(** The characters of a string, as a list. *)
Fixpoint chars (s : string) : list ascii :=
  match s with
  | EmptyString => []
  | String c s' => c :: chars s'
  end.

Fixpoint of_chars (l : list ascii) : string :=
  match l with
  | [] => EmptyString
  | c :: l' => String c (of_chars l')
  end.

(** Decimal rendering of an integer, as Python's [str] gives it. *)
Definition of_Z (z : Z) : string := NilZero.string_of_int (Z.to_int z).

End Str.

(* ===================================================================== *)
(** ** Exceptions *)
(* ===================================================================== *)

(** The Python exceptions the modelled operations can raise. *)
Inductive exn :=
| KeyError (key : string)
| TypeError
| ValueError
| AttributeError
| OverflowError
| FileNotFoundError
| ParserError.

Inductive result (A : Type) :=
| Ok (a : A)
| Err (e : exn).
Arguments Ok {A} a.
Arguments Err {A} e.

#[export] Instance result_ret : MRet result := fun A a => Ok a.
#[export] Instance result_bind : MBind result :=
  fun A B f m => match m with Ok a => f a | Err e => Err e end.

Definition is_ok {A} (r : result A) : bool :=
  match r with Ok _ => true | Err _ => false end.

(** The [errors=] keyword of [pd.to_numeric] and [DataFrame.drop]. *)
Inductive errors := raise | coerce | ignore.

(* ===================================================================== *)
(** ** Numbers and cells *)
(* ===================================================================== *)

(** A float: [Finite m e] is the binary64 nearest to the decimal
    [m * 10^e], kept in the normal form where [m] is not a multiple of ten
    (zero is [Finite 0 0]). *)
Inductive float :=
| Finite (m e : Z)
| Infinity (neg : bool).

Inductive cell :=
| VInt (z : Z)
| VFloat (f : float)
| VStr (s : string)
| VNaN.

#[export] Instance float_eq_dec : EqDecision float.
Proof. solve_decision. Defined.
#[export] Instance cell_eq_dec : EqDecision cell.
Proof. solve_decision. Defined.

Module Num.
Import Str.

Fixpoint strip_zeros (fuel : nat) (m e : Z) : Z * Z :=
  match fuel with
  | O => (m, e)
  | S k => if m mod 10 =? 0 then strip_zeros k (m / 10) (e + 1) else (m, e)
  end.

(** The float [m * 10^e], normalised. *)
Definition mk_float (m e : Z) : float :=
  if m =? 0 then Finite 0 0
  else let '(m', e') := strip_zeros (Z.to_nat (Z.log2 (Z.abs m))) m e in
       Finite m' e'.

(** The binary64 nearest to an integer, as the integer it is equal to: an
    integer below [2^53] is one; a larger one is rounded to 53 significant
    bits, a tie going to the even significand. *)
Definition round_int (z : Z) : Z :=
  let a := Z.abs z in
  if a <? 2 ^ 53 then z
  else
    let k := Z.log2 a - 52 in
    let q := a / 2 ^ k in
    let r := a mod 2 ^ k in
    let up := (2 ^ (k - 1) <? r) || ((r =? 2 ^ (k - 1)) && Z.odd q) in
    Z.sgn z * ((if up then q + 1 else q) * 2 ^ k).

(** The least magnitude that rounds to [2^1024], which no binary64 is. *)
Definition limit : Z := 2 ^ 1024 - 2 ^ 970.

(** Whether [m * 10^e] is beyond the binary64. *)
Definition too_large (m e : Z) : bool :=
  limit * 10 ^ Z.max 0 (- e) <=? Z.abs m * 10 ^ Z.max 0 e.

(** Whether [float(z)] raises [OverflowError]. *)
Definition overflows (z : Z) : bool := too_large z 0.

(** [float(z)], when it does not raise. *)
Definition float_of_Z (z : Z) : float := mk_float (round_int z) 0.

(** *** Reading a number

    The grammar pandas accepts when it converts a string
    ([floatify]/[xstrtod]): blanks, an optional sign, digits with an optional
    fractional part (at least one digit in all), an optional exponent,
    blanks.  Without a point and an exponent the literal is an integer. *)

Inductive number := Int (z : Z) | Flt (f : float).

Fixpoint skip_space (l : list ascii) : list ascii :=
  match l with
  | c :: l' => if is_space c then skip_space l' else l
  | [] => []
  end.

(** Consumes a run of digits: the value accumulated onto [acc], how many
    digits were read, and the rest of the input. *)
Fixpoint digits (l : list ascii) (acc n : Z) : Z * Z * list ascii :=
  match l with
  | c :: l' =>
      if is_digit c then digits l' (10 * acc + (code c - 48)) (n + 1)
      else (acc, n, l)
  | [] => (acc, n, [])
  end.

Definition sign (l : list ascii) : bool * list ascii :=
  match l with
  | c :: l' =>
      if Ascii.eqb c "-" then (true, l')
      else if Ascii.eqb c "+" then (false, l')
      else (false, l)
  | [] => (false, [])
  end.

(** The fractional part: [(mantissa, fraction digits, rest, point seen)]. *)
Definition fraction (l : list ascii) (ip : Z) : Z * Z * list ascii * bool :=
  match l with
  | c :: l' =>
      if Ascii.eqb c "." then let '(m, nf, r) := digits l' ip 0 in (m, nf, r, true)
      else (ip, 0, l, false)
  | [] => (ip, 0, [], false)
  end.

(** The exponent part: [(exponent, rest, exponent seen)].  An [e] that no
    digit follows is not consumed. *)
Definition exponent (l : list ascii) : Z * list ascii * bool :=
  match l with
  | c :: l' =>
      if Ascii.eqb c "e" || Ascii.eqb c "E" then
        let '(neg, l'') := sign l' in
        let '(x, nx, r) := digits l'' 0 0 in
        if nx =? 0 then (0, l, false)
        else (if neg then - x else x, r, true)
      else (0, l, false)
  | [] => (0, [], false)
  end.

Definition literal (s : string) : option number :=
  let '(neg, l) := sign (skip_space (chars s)) in
  let '(ip, ni, l) := digits l 0 0 in
  let '(m, nf, l, dot) := fraction l ip in
  if ni + nf =? 0 then None
  else
    let '(ex, l, sci) := exponent l in
    match skip_space l with
    | [] =>
        let m := if neg then - m else m in
        Some (if dot || sci then Flt (mk_float m (ex - nf)) else Int m)
    | _ :: _ => None
    end.

(** The spellings of infinity, compared without regard to case. *)
Definition infinity (s : string) : option float :=
  let t := lower s in
  if decide (t = "inf" \/ t = "+inf" \/ t = "infinity" \/ t = "+infinity")
  then Some (Infinity false)
  else if decide (t = "-inf" \/ t = "-infinity") then Some (Infinity true)
  else None.

(** The number a string denotes, if any.  A literal beyond the binary64 is
    not a number for the reader of pandas. *)
Definition parse (s : string) : option cell :=
  match literal s with
  | Some (Int z) => if overflows z then None else Some (VInt z)
  | Some (Flt (Finite m e)) => if too_large m e then None else Some (VFloat (Finite m e))
  | Some (Flt f) => Some (VFloat f)
  | None => VFloat <$> infinity s
  end.

(** *** Writing a number: Python's [str] *)

Definition zeros (n : Z) : string := of_chars (repeat "0"%char (Z.to_nat n)).

Definition exp_digits (x : Z) : string :=
  (if x <? 0 then "-" else "+") +:+
  (if Z.abs x <? 10 then "0" else "") +:+ of_Z (Z.abs x).

(** What [str] refuses to write: an integer of more than 4300 digits, the
    limit Python sets on the conversion (since 3.11, and in the earlier
    releases that received the change). *)
Definition str_limit : Z := 10 ^ 4300.

Definition too_long (z : Z) : bool := str_limit <=? Z.abs z.

(** [repr] of a float: positional notation when the decimal point falls
    within the range Python prints that way, scientific otherwise. *)
Definition str_of_float (f : float) : string :=
  match f with
  | Infinity neg => if neg then "-inf" else "inf"
  | Finite m e =>
      let ds := of_Z (Z.abs m) in
      let n := Z.of_nat (String.length ds) in
      let decpt := n + e in
      (if m <? 0 then "-" else "") +:+
      (if (decpt <=? -4) || (16 <? decpt) then
         String.substring 0 1 ds +:+
         (if n =? 1 then "" else "." +:+ String.substring 1 (Z.to_nat (n - 1)) ds) +:+
         "e" +:+ exp_digits (decpt - 1)
       else if decpt <=? 0 then "0." +:+ zeros (- decpt) +:+ ds
       else if n <=? decpt then ds +:+ zeros (decpt - n) +:+ ".0"
       else String.substring 0 (Z.to_nat decpt) ds +:+ "." +:+
            String.substring (Z.to_nat decpt) (Z.to_nat (n - decpt)) ds)
  end.

End Num.

(** [str(c)] for a cell [c], as [Series.astype(str)] applies it, when it
    does not raise. *)
Definition str_of_cell (c : cell) : string :=
  match c with
  | VInt z => Str.of_Z z
  | VFloat f => Num.str_of_float f
  | VStr s => s
  | VNaN => "nan"
  end.

Definition is_number (c : cell) : bool :=
  match c with VInt _ | VFloat _ => true | _ => false end.

Definition is_missing (c : cell) : bool :=
  match c with VNaN => true | _ => false end.

Definition is_str (c : cell) : bool :=
  match c with VStr _ => true | _ => false end.

(* ===================================================================== *)
(** ** Tables *)
(* ===================================================================== *)

(** A column taken out of a table: the row labels and one cell per row. *)
Record Series := { s_index : list Z; s_values : list cell }.

(** A table: the row labels, and the columns in order, each a name with its
    cells.  Nothing prevents two columns from bearing the same name. *)
Record DataFrame := { index : list Z; data : list (string * list cell) }.

#[export] Instance Series_eq_dec : EqDecision Series.
Proof. solve_decision. Defined.
#[export] Instance DataFrame_eq_dec : EqDecision DataFrame.
Proof. solve_decision. Defined.

(** [df.columns] *)
Definition columns (df : DataFrame) : list string := (data df).*1.

(** [len(df)] *)
Definition nrows (df : DataFrame) : nat := length (index df).

(** Every column has one cell per row. *)
Definition wf (df : DataFrame) : Prop :=
  Forall (fun c => length c.2 = nrows df) (data df).

(** What [df[name]] evaluates to: a Series when one column bears the name,
    a table of the columns that bear it when several do. *)
Inductive selection :=
| OneColumn (s : Series)
| SubFrame (f : DataFrame).

(** The pandas operations [clean_dataset] calls. *)
Module pd.

(** [df.copy()]: a new table with the same contents. *)
Definition copy (df : DataFrame) : DataFrame :=
  {| index := index df; data := data df |}.

(** [df.columns = names] *)
Definition set_columns (names : list string) (df : DataFrame) : result DataFrame :=
  if decide (length names = length (data df))
  then Ok {| index := index df; data := zip names (data df).*2 |}
  else Err ValueError.

(** [name in df.columns] *)
Definition has_column (name : string) (df : DataFrame) : bool :=
  bool_decide (name ∈ columns df).

(** [df[name]] *)
Definition getitem (df : DataFrame) (name : string) : result selection :=
  match filter (fun c => c.1 = name) (data df) with
  | [] => Err (KeyError name)
  | [c] => Ok (OneColumn {| s_index := index df; s_values := c.2 |})
  | cs => Ok (SubFrame {| index := index df; data := cs |})
  end.

Fixpoint at_label (l : Z) (idx : list Z) (vs : list cell) : cell :=
  match idx, vs with
  | l' :: idx', v :: vs' => if decide (l' = l) then v else at_label l idx' vs'
  | _, _ => VNaN
  end.

(** [s.reindex(idx)]: the value of [s] at each label of [idx], NaN at a
    label [s] does not have; refused when [s] repeats a label. *)
Definition reindex (s : Series) (idx : list Z) : result (list cell) :=
  if decide (NoDup (s_index s))
  then Ok (map (fun l => at_label l (s_index s) (s_values s)) idx)
  else Err ValueError.

(** [df[name] = s]: [s] is aligned on the row labels of [df] (used as it is
    when it carries the same labels), then stored under [name], in place of
    the columns that bear the name or as a new last column.  (The case where
    a table without rows adopts the labels of [s] is not modelled.) *)
Definition setitem (df : DataFrame) (name : string) (s : Series) : result DataFrame :=
  vs ← (if decide (s_index s = index df) then Ok (s_values s)
        else reindex s (index df));
  Ok {| index := index df;
        data := if has_column name df
                then map (fun c => if decide (c.1 = name) then (name, vs) else c) (data df)
                else data df ++ [(name, vs)] |}.

(** One cell of [pd.to_numeric]: a float and NaN stay; so does an integer,
    which is also converted to a float, and that raises [OverflowError] for
    an integer too large, under every [errors=]; the empty string is NaN;
    another string is read as a number, [None] when it is not one. *)
Definition convert_cell (c : cell) : result (option cell) :=
  match c with
  | VInt z => if Num.overflows z then Err OverflowError else Ok (Some c)
  | VStr s => Ok (if decide (s = "") then Some VNaN else Num.parse s)
  | _ => Ok (Some c)
  end.

Fixpoint convert_values (errs : errors) (vs : list cell) : result (list cell) :=
  match vs with
  | [] => Ok []
  | c :: vs' =>
      o ← convert_cell c;
      c' ← match o with
           | Some c' => Ok c'
           | None => match errs with coerce => Ok VNaN | _ => Err ValueError end
           end;
      r ← convert_values errs vs';
      Ok (c' :: r)
  end.

Definition floating (c : cell) : bool :=
  match c with VFloat _ | VNaN => true | _ => false end.

(** The integers of the dtypes int64 and uint64. *)
Definition int64 (z : Z) : bool := (- 2 ^ 63 <=? z) && (z <? 2 ^ 63).
Definition uint64 (z : Z) : bool := (0 <=? z) && (z <? 2 ^ 64).

Definition beyond_64_bits (c : cell) : bool :=
  match c with VInt z => negb (int64 z || uint64 z) | _ => false end.

Definition negative (c : cell) : bool :=
  match c with VInt z => z <? 0 | _ => false end.

Definition beyond_int64 (c : cell) : bool :=
  match c with VInt z => 2 ^ 63 <=? z | _ => false end.

(** Whether the result is of dtype float64: when the column holds a float
    or NaN, an integer that fits in neither int64 nor uint64, or both a
    negative integer and one beyond int64.  (In the last case pandas does so
    for integer objects and leaves the result unspecified for strings.) *)
Definition needs_float (vs : list cell) : bool :=
  existsb floating vs || existsb beyond_64_bits vs ||
  (existsb negative vs && existsb beyond_int64 vs).

(** [float(z)] for an integer cell: the nearest binary64. *)
Definition to_float (c : cell) : cell :=
  match c with VInt z => VFloat (Num.float_of_Z z) | _ => c end.

(** The result has one dtype: int64, uint64 or float64. *)
Definition unify (vs : list cell) : list cell :=
  if needs_float vs then map to_float vs else vs.

(** [pd.to_numeric(arg, errors=errs)]; [errors='ignore'] returns the argument
    when a cell is not a number. *)
Definition to_numeric (arg : selection) (errs : errors) : result Series :=
  match arg with
  | SubFrame _ => Err TypeError
  | OneColumn s =>
      match convert_values errs (s_values s) with
      | Ok vs => Ok {| s_index := s_index s; s_values := unify vs |}
      | Err e =>
          match errs, e with
          | ignore, ValueError => Ok s
          | _, _ => Err e
          end
      end
  end.

(** [str(c)] as a cell; [ValueError] for an integer [str] refuses. *)
Definition str_cell (c : cell) : result cell :=
  match c with
  | VInt z => if Num.too_long z then Err ValueError else Ok (VStr (str_of_cell c))
  | _ => Ok (VStr (str_of_cell c))
  end.

Fixpoint strs (vs : list cell) : result (list cell) :=
  match vs with
  | [] => Ok []
  | c :: vs' => c' ← str_cell c; r ← strs vs'; Ok (c' :: r)
  end.

Fixpoint strs_columns (cs : list (string * list cell))
  : result (list (string * list cell)) :=
  match cs with
  | [] => Ok []
  | c :: cs' => vs ← strs c.2; r ← strs_columns cs'; Ok ((c.1, vs) :: r)
  end.

(** [arg.astype(str)] *)
Definition astype_str (arg : selection) : result selection :=
  match arg with
  | OneColumn s =>
      vs ← strs (s_values s);
      Ok (OneColumn {| s_index := s_index s; s_values := vs |})
  | SubFrame f =>
      cs ← strs_columns (data f);
      Ok (SubFrame {| index := index f; data := cs |})
  end.

(** [arg.str.replace('[' + cls + ']', repl, regex=True)].  A table has no
    [.str]; a Series has one unless it holds numbers and no string; a cell
    that is not a string gives NaN. *)
Definition str_replace_class (arg : selection) (cls : list ascii) (repl : string)
  : result Series :=
  match arg with
  | SubFrame _ => Err AttributeError
  | OneColumn s =>
      if existsb is_str (s_values s) || forallb is_missing (s_values s)
      then Ok {| s_index := s_index s;
                 s_values := map (fun c => match c with
                                           | VStr t => VStr (Str.replace_class cls repl t)
                                           | _ => VNaN
                                           end) (s_values s) |}
      else Err AttributeError
  end.

(** [df.drop(columns=labels, errors=errs)] *)
Definition drop (labels : list string) (errs : errors) (df : DataFrame) : result DataFrame :=
  match errs, filter (fun l => l ∉ columns df) labels with
  | raise, l :: _ => Err (KeyError l)
  | _, _ => Ok {| index := index df; data := filter (fun c => c.1 ∉ labels) (data df) |}
  end.

Fixpoint renamed (mapping : list (string * string)) (name : string) : string :=
  match mapping with
  | [] => name
  | (old, new) :: mapping' => if decide (old = name) then new else renamed mapping' name
  end.

(** [df.rename(columns=mapping)] *)
Definition rename (mapping : list (string * string)) (df : DataFrame) : DataFrame :=
  {| index := index df; data := map (fun c => (renamed mapping c.1, c.2)) (data df) |}.

End pd.

(* ===================================================================== *)
(** ** [clean_dataset] (app.py, lines 99-120) *)
(* ===================================================================== *)

(** Line 103, on one name:
    [.str.lower().str.replace(' ', '_').str.replace('(', '').str.replace(')', '')] *)
Definition standardize (name : string) : string :=
  Str.replace ")" "" (Str.replace "(" "" (Str.replace " " "_" (Str.lower name))).

(** Line 103. *)
Definition standardize_columns (df : DataFrame) : result DataFrame :=
  pd.set_columns (map standardize (columns df)) df.

(** Lines 106, 107 and 112:
    [df[name] = pd.to_numeric(df[name], errors='coerce')] *)
Definition convert_column (name : string) (df : DataFrame) : result DataFrame :=
  s ← pd.getitem df name;
  v ← pd.to_numeric s coerce;
  pd.setitem df name v.

(** Lines 110-112. *)
Definition clean_gdp_for_year (df : DataFrame) : result DataFrame :=
  if pd.has_column "gdp_for_year_$" df then
    s ← pd.getitem df "gdp_for_year_$";
    s ← pd.astype_str s;
    v ← pd.str_replace_class s ["$"; ","]%char "";
    df ← pd.setitem df "gdp_for_year_$" v;
    convert_column "gdp_for_year_$" df
  else Ok df.

(** Line 115. *)
Definition drop_hdi (df : DataFrame) : result DataFrame :=
  pd.drop ["hdi_for_year"] ignore df.

(** Line 118. *)
Definition rename_columns (df : DataFrame) : result DataFrame :=
  Ok (pd.rename [("gdp_per_capita_$", "gdp_per_capita")] df).

(** The table [clean_dataset] returns for the table [df], or the exception it
    raises. *)
Definition clean_dataset (df : DataFrame) : result DataFrame :=
  let df := pd.copy df in
  df ← standardize_columns df;
  df ← convert_column "suicides_no" df;
  df ← convert_column "gdp_per_capita_$" df;
  df ← clean_gdp_for_year df;
  df ← drop_hdi df;
  df ← rename_columns df;
  Ok df.

(** The steps of lines 106-115, which the specification numbers 2 to 5. *)
Inductive step := Step2 | Step3 | Step4 | Step5.

Definition run_step (s : step) : DataFrame -> result DataFrame :=
  match s with
  | Step2 => convert_column "suicides_no"
  | Step3 => clean_gdp_for_year
  | Step4 => convert_column "gdp_per_capita_$"
  | Step5 => drop_hdi
  end.

Fixpoint run_steps (order : list step) (df : DataFrame) : result DataFrame :=
  match order with
  | [] => Ok df
  | s :: order' => df ← run_step s df; run_steps order' df
  end.

(** The order in which the code runs them. *)
Definition code_order : list step := [Step2; Step4; Step3; Step5].

(** [clean_dataset] with the steps 2 to 5 run in the given order. *)
Definition clean_dataset_in (order : list step) (df : DataFrame) : result DataFrame :=
  let df := pd.copy df in
  df ← standardize_columns df;
  df ← run_steps order df;
  df ← rename_columns df;
  Ok df.

Definition to_option {A} (r : result A) : option A :=
  match r with Ok a => Some a | Err _ => None end.

(* ===================================================================== *)
(** ** The program on objects *)
(* ===================================================================== *)

(** Python names denote objects, and [clean_dataset] updates the table its
    local name [df] denotes in place.  Here the tables live in a heap and a
    name holds a reference into it. *)
Module Obj.

Abbreviation ref := nat (only parsing).
Abbreviation heap := (list DataFrame) (only parsing).

(** A computation on the heap: the value or exception it ends with and the
    heap it leaves; [None] when it follows a reference that denotes no
    object, which no Python program can do. *)
Definition M (A : Type) : Type := heap -> option (result A * heap).

#[export] Instance M_ret : MRet M := fun A a h => Some (Ok a, h).
#[export] Instance M_bind : MBind M := fun A B f m h =>
  match m h with
  | Some (Ok a, h') => f a h'
  | Some (Err e, h') => Some (Err e, h')
  | None => None
  end.

Definition throw {A} (e : exn) : M A := fun h => Some (Err e, h).

(** A new object. *)
Definition alloc (f : DataFrame) : M ref := fun h => Some (Ok (length h), (h ++ [f])%list).

(** The table a reference denotes. *)
Definition deref (r : ref) : M DataFrame := fun h =>
  match h !! r with
  | Some f => Some (Ok f, h)
  | None => None
  end.

(** An operation that changes the object at [r] in place, or raises and
    leaves it as it was. *)
Definition update (r : ref) (op : DataFrame -> result DataFrame) : M unit := fun h =>
  match h !! r with
  | Some f =>
      match op f with
      | Ok f' => Some (Ok tt, <[r := f']> h)
      | Err e => Some (Err e, h)
      end
  | None => None
  end.

(** [df.copy()] *)
Definition copy (r : ref) : M ref := f ← deref r; alloc (pd.copy f).

(** Lines 99-120; the caching decorator is left out. *)
Definition clean_dataset (df : ref) : M ref :=
  df ← copy df;
  _ ← update df standardize_columns;
  _ ← update df (convert_column "suicides_no");
  _ ← update df (convert_column "gdp_per_capita_$");
  _ ← update df clean_gdp_for_year;
  _ ← update df drop_hdi;
  _ ← update df rename_columns;
  mret df.

Section Loader.

(** The CSV reader of pandas, on the text of a file. *)
Variable parse_csv : string -> result DataFrame.

(** The files at the time of a call: the text under each path. *)
Definition files := string -> option string.

(** [pd.read_csv(path)] *)
Definition read_csv (fs : files) (path : string) : M ref :=
  match fs path with
  | None => throw FileNotFoundError
  | Some text =>
      match parse_csv text with
      | Ok f => alloc f
      | Err e => throw e
      end
  end.

(** The definition of lines 8-10. *)
Definition load_data (fs : files) : M ref := read_csv fs "sucide_case.csv".

(** The definition of lines 93-95, which replaces the first. *)
Definition load_data' (fs : files) : M ref := read_csv fs "sucide_case.csv".

(** The statements of the script that bind tables: lines 12, 123 and 124,
    with the files as they are at line 12 and at line 123. *)
Definition main (fs fs' : files) : M (ref * ref * ref) :=
  df ← load_data fs;
  df_raw ← load_data' fs';
  df_clean ← clean_dataset df_raw;
  mret (df, df_raw, df_clean).

End Loader.

End Obj.

(* ===================================================================== *)
(** ** Notions the statements use *)
(* ===================================================================== *)

(** How many columns bear a name. *)
Definition count (name : string) (df : DataFrame) : nat :=
  length (filter (fun c => c.1 = name) (data df)).

(** The table with every column name standardized. *)
Definition standardized (df : DataFrame) : DataFrame :=
  {| index := index df; data := map (fun c => (standardize c.1, c.2)) (data df) |}.

(** The table with [g] applied to the cells of the columns called [name]. *)
Definition on_column (name : string) (g : list cell -> list cell) (df : DataFrame)
  : DataFrame :=
  {| index := index df;
     data := map (fun c => if decide (c.1 = name) then (name, g c.2) else c) (data df) |}.

(** A cell read as a number, NaN when it is not one.  (A cell that makes
    the conversion raise is left as it is.) *)
Definition coerce_cell (c : cell) : cell :=
  match pd.convert_cell c with
  | Ok o => default VNaN o
  | Err _ => c
  end.

(** A cell Python can turn into a float: any cell but an integer of
    magnitude [2^1024 - 2^970] or more, which rounds to no binary64. *)
Definition representable (c : cell) : bool :=
  match c with VInt z => Z.abs z <? Num.limit | _ => true end.

(** No cell of the column is an integer too large for a float. *)
Definition fits (vs : list cell) : bool := forallb representable vs.

(** An integer cell is one of an [int64] or [uint64] column; the other cells
    are as they come. *)
Definition machine_int (c : cell) : bool :=
  match c with VInt z => pd.int64 z || pd.uint64 z | _ => true end.

(** A cell [str] writes: any cell but an integer of more than 4300
    digits. *)
Definition printable (c : cell) : bool :=
  match c with VInt z => Z.abs z <? Num.str_limit | _ => true end.

(** [str] writes every cell of the column. *)
Definition prints (vs : list cell) : bool := forallb printable vs.

(** Every column called [name] satisfies [P]. *)
Definition column_all (P : list cell -> bool) (name : string) (df : DataFrame) : bool :=
  forallb (fun c => bool_decide (c.1 <> name) || P c.2) (data df).

(** The columns called [name] hold no integer too large for a float. *)
Definition column_fits (name : string) (df : DataFrame) : bool := column_all fits name df.

(** The columns called [name] hold no integer [str] refuses. *)
Definition column_prints (name : string) (df : DataFrame) : bool :=
  column_all prints name df.

(** A column read as numbers. *)
Definition numeric (vs : list cell) : list cell := pd.unify (map coerce_cell vs).

(** A cell written as a string, without its [$] and [,]. *)
Definition strip_currency (c : cell) : cell :=
  VStr (Str.replace_class ["$"; ","]%char "" (str_of_cell c)).

(** A column of amounts read as numbers. *)
Definition currency (vs : list cell) : list cell := numeric (map strip_currency vs).

Definition numeric_or_missing (c : cell) : Prop := is_number c || is_missing c = true.

(** [y] is [x] read as a number: as an integer, a float or NaN. *)
Definition read_from (x y : cell) : Prop :=
  y = coerce_cell x \/ y = pd.to_float (coerce_cell x).

(** [y] is what the cleaning can make of the cell [x]: [x] itself, [x] read
    as a number, or [x] read as an amount. *)
Definition from_cell (x y : cell) : Prop :=
  y = x \/ read_from x y \/ read_from (strip_currency x) y.

(** What the cleaning makes of one column of the standardized table. *)
Definition clean_column (c : string * list cell) : string * list cell :=
  (pd.renamed [("gdp_per_capita_$", "gdp_per_capita")] c.1,
   if decide (c.1 = "suicides_no" \/ c.1 = "gdp_per_capita_$") then numeric c.2
   else if decide (c.1 = "gdp_for_year_$") then currency c.2
   else c.2).

(** The table the cleaning produces when it produces one. *)
Definition cleaned (raw : DataFrame) : DataFrame :=
  {| index := index raw;
     data := map clean_column
               (filter (fun c => c.1 <> "hdi_for_year") (data (standardized raw))) |}.

(** The names a step of the cleaning looks up, after standardization. *)
Definition touched (name : string) : Prop :=
  name = "suicides_no" \/ name = "gdp_for_year_$" \/
  name = "gdp_per_capita_$" \/ name = "hdi_for_year".

Definition no_char (P : ascii -> bool) (s : string) : Prop :=
  Forall (fun c => P c = false) (Str.chars s).

#[export] Instance step_eq_dec : EqDecision step.
Proof. solve_decision. Defined.

(** The table without its columns called [hdi_for_year]. *)
Definition dropped (df : DataFrame) : DataFrame :=
  {| index := index df; data := filter (fun c => c.1 <> "hdi_for_year") (data df) |}.

(** Whether a step goes through on a table, *)
Definition step_ok (s : step) (df : DataFrame) : bool :=
  match s with
  | Step2 => bool_decide (count "suicides_no" df = 1%nat) && column_fits "suicides_no" df
  | Step3 =>
      bool_decide (count "gdp_for_year_$" df <= 1)%nat && column_prints "gdp_for_year_$" df
  | Step4 =>
      bool_decide (count "gdp_per_capita_$" df = 1%nat) && column_fits "gdp_per_capita_$" df
  | Step5 => true
  end.

(** and the table it then leaves. *)
Definition step_effect (s : step) (df : DataFrame) : DataFrame :=
  match s with
  | Step2 => on_column "suicides_no" numeric df
  | Step3 => on_column "gdp_for_year_$" currency df
  | Step4 => on_column "gdp_per_capita_$" numeric df
  | Step5 => dropped df
  end.

(** What line 103 makes of one character of a name. *)
Definition standardize_char (c : ascii) : list ascii :=
  if Ascii.eqb c "(" || Ascii.eqb c ")" then []
  else if Ascii.eqb c " " then ["_"%char]
  else [Str.lower_char c].

(** A name has no capital, blank or parenthesis. *)
Definition plain (name : string) : Prop :=
  no_char Str.is_upper name /\ no_char (Ascii.eqb " ") name /\
  no_char (Ascii.eqb "(") name /\ no_char (Ascii.eqb ")") name.

(** A row of the source file, as the end-to-end scenario of the
    specification gives it, and a second row. *)
Definition albania : DataFrame :=
  {| index := [0; 1];
     data := [("country", [VStr "Albania"; VStr "Albania"]);
              ("year", [VInt 1987; VInt 1988]);
              ("sex", [VStr "male"; VStr "female"]);
              ("age", [VStr "15-24 years"; VStr "75+ years"]);
              ("suicides_no", [VInt 21; VInt 1]);
              ("population", [VInt 312900; VInt 35600]);
              ("suicides/100k pop", [VFloat (Finite 671 (-2)); VFloat (Finite 281 (-2))]);
              ("country-year", [VStr "Albania1987"; VStr "Albania1987"]);
              ("gdp_for_year ($)", [VStr "2,156,624,900"; VStr "2,156,624,900"]);
              ("gdp_per_capita ($)", [VInt 796; VInt 796]);
              ("generation", [VStr "Generation X"; VStr "G.I. Generation"]);
              ("HDI for year", [VNaN; VNaN])] |}.

(** A table without the GDP-per-year and HDI columns. *)
Definition two_columns : DataFrame :=
  {| index := [0; 1];
     data := [("suicides_no", [VStr "abc"; VInt 4]);
              ("gdp_per_capita ($)", [VInt 796; VStr "1,5"])] |}.

(** A table whose [suicides_no] column, of Python objects, holds an integer
    no float can hold. *)
Definition huge_count : DataFrame :=
  {| index := [0; 1];
     data := [("suicides_no", [VInt (2 ^ 1024); VStr "abc"]);
              ("gdp_per_capita ($)", [VInt 796; VInt 796])] |}.

(** A table without a [suicides_no] column, and one without GDP per
    capita. *)
Definition no_suicides_no : DataFrame :=
  {| index := [0]; data := [("year", [VInt 1987]); ("gdp_per_capita ($)", [VInt 796])] |}.

Definition no_gdp_per_capita : DataFrame :=
  {| index := [0]; data := [("year", [VInt 1987]); ("suicides_no", [VInt 21])] |}.

(* ===================================================================== *)
(** ** The rest of the script *)
(* ===================================================================== *)

(** [column_info] (lines 15-27): the columns the dashboard documents, in the
    order of the dict. *)
Definition column_info : list (string * string) :=
  [("country", "Country where the data was recorded.");
   ("year", "Year of the record (1985 to 2016).");
   ("sex", "Gender (Male or Female).");
   ("age", "Age group (e.g., 15-24 years, 75+ years).");
   ("suicides_no", "Total number of suicides for the group.");
   ("population", "Population of that age/sex group in the country and year.");
   ("suicides/100k pop", "Suicide rate per 100,000 people.");
   ("country-year", "Combined field for country and year (used for merging).");
   ("gdp_for_year ($)", "GDP of the country for that year (formatted with commas).");
   ("gdp_per_capita ($)", "GDP per capita (individual economic measure).");
   ("generation", "Generation category (e.g., Boomers, Millennials).")].

(** [df.head(n)] for [n >= 0] (lines 128 and 146, with [n = 10]). *)
Definition df_head (n : nat) (df : DataFrame) : DataFrame :=
  {| index := take n (index df); data := map (fun c => (c.1, take n c.2)) (data df) |}.

Definition is_int (c : cell) : bool :=
  match c with VInt _ => true | _ => false end.

(** A cell of a column of dtype [int64], of dtype [uint64]. *)
Definition is_int64 (c : cell) : bool :=
  match c with VInt z => pd.int64 z | _ => false end.

Definition is_uint64 (c : cell) : bool :=
  match c with VInt z => pd.uint64 z | _ => false end.

(** The cells of a column of a numeric dtype: [int64], [uint64] or
    [float64]. *)
Definition one_dtype (vs : list cell) : Prop :=
  Forall (fun c => is_int64 c = true) vs \/ Forall (fun c => is_uint64 c = true) vs \/
  Forall (fun c => pd.floating c = true) vs.

(** The number a run of decimal digits denotes, read from the left onto
    [acc]. *)
Fixpoint uint_acc (u : Decimal.uint) (acc : Z) : Z :=
  match u with
  | Decimal.Nil => acc
  | Decimal.D0 l => uint_acc l (10 * acc)
  | Decimal.D1 l => uint_acc l (10 * acc + 1)
  | Decimal.D2 l => uint_acc l (10 * acc + 2)
  | Decimal.D3 l => uint_acc l (10 * acc + 3)
  | Decimal.D4 l => uint_acc l (10 * acc + 4)
  | Decimal.D5 l => uint_acc l (10 * acc + 5)
  | Decimal.D6 l => uint_acc l (10 * acc + 6)
  | Decimal.D7 l => uint_acc l (10 * acc + 7)
  | Decimal.D8 l => uint_acc l (10 * acc + 8)
  | Decimal.D9 l => uint_acc l (10 * acc + 9)
  end.

(** The session state and the two buttons (lines 34-47, 62 and 65).
    Streamlit runs the script again at every click; [st.session_state]
    outlives the runs, and a button is true in the run its click triggers. *)
Module St.

Abbreviation session_state := (gmap string bool) (only parsing).

(** [if key not in st.session_state: st.session_state[key] = value] *)
Definition setdefault (key : string) (value : bool) (s : session_state) : session_state :=
  match s !! key with
  | None => <[key := value]> s
  | Some _ => s
  end.

(** Lines 34-37. *)
Definition initialize (s : session_state) : session_state :=
  setdefault "show_columns" false (setdefault "show_dataset" false s).

(** Lines 44-47, given what the two buttons return. *)
Definition sidebar (show_dataset show_columns : bool) (s : session_state) : session_state :=
  let s := if show_dataset then <["show_dataset" := true]> s else s in
  if show_columns then <["show_columns" := true]> s else s.

(** [st.session_state.key] *)
Definition getattr (s : session_state) (key : string) : result bool :=
  match s !! key with
  | Some b => Ok b
  | None => Err AttributeError
  end.

(** The tests of lines 62 and 65: whether the dataset and the column
    information are rendered. *)
Definition shown (s : session_state) : result (bool * bool) :=
  d ← getattr s "show_dataset";
  c ← getattr s "show_columns";
  Ok (d, c).

(** One run of the script as far as the session goes: what it renders of
    the two optional sections, and the session it leaves. *)
Definition rerun (clicks : bool * bool) (s : session_state)
  : result (bool * bool) * session_state :=
  let s := sidebar clicks.1 clicks.2 (initialize s) in
  (shown s, s).

(** The session after a series of runs. *)
Definition session_after (events : list (bool * bool)) (s : session_state) : session_state :=
  foldl (fun s e => (rerun e s).2) s events.

End St.

(* ===================================================================== *)
(** ** The model on examples *)
(* ===================================================================== *)

Example parse_examples :
  map Num.parse ["1234567"; " 12 "; "+7"; "-3.50"; "1e3"; "5."; ".5"; "Inf";
                 "1e"; "abc"; ""; "."; "1,2"; "1 2"; "nan"]
  = [Some (VInt 1234567); Some (VInt 12); Some (VInt 7); Some (VFloat (Finite (-35) (-1)));
     Some (VFloat (Finite 1 3)); Some (VFloat (Finite 5 0)); Some (VFloat (Finite 5 (-1)));
     Some (VFloat (Infinity false));
     None; None; None; None; None; None; None].
Proof. reflexivity. Qed.

Example str_of_cell_examples :
  map str_of_cell [VInt 796; VInt (-3); VFloat (Finite 671 (-2)); VFloat (Finite 21566249 2);
                   VFloat (Finite 1 16); VFloat (Finite 1 (-5)); VFloat (Finite 0 0);
                   VFloat (Infinity true); VStr "2,156,624,900"; VNaN]
  = ["796"; "-3"; "6.71"; "2156624900.0"; "1e+16"; "1e-05"; "0.0"; "-inf";
     "2,156,624,900"; "nan"].
Proof. reflexivity. Qed.

Example standardize_examples :
  map standardize ["country"; "suicides/100k pop"; "gdp_for_year ($)"; "gdp_per_capita ($)";
                   "HDI for year"]
  = ["country"; "suicides/100k_pop"; "gdp_for_year_$"; "gdp_per_capita_$"; "hdi_for_year"].
Proof. reflexivity. Qed.

(** Under [errors='raise'] a string that is not a number is an error; a
    table in place of a Series is one under every setting. *)
Example to_numeric_examples :
  pd.to_numeric (OneColumn {| s_index := [0; 1]; s_values := [VStr "abc"; VStr "7"] |}) raise
  = Err ValueError /\
  pd.to_numeric (OneColumn {| s_index := [0; 1]; s_values := [VStr "abc"; VStr "7"] |}) coerce
  = Ok {| s_index := [0; 1]; s_values := [VNaN; VFloat (Finite 7 0)] |} /\
  pd.to_numeric (OneColumn {| s_index := [0; 1]; s_values := [VStr "21"; VStr "7"] |}) coerce
  = Ok {| s_index := [0; 1]; s_values := [VInt 21; VInt 7] |} /\
  pd.to_numeric (SubFrame two_columns) coerce = Err TypeError.
Proof. repeat split; reflexivity. Qed.

(** Integers that are no [int64]: a column of Python objects becomes one of
    floats when an integer is outside 64 bits or the integers fit neither
    [int64] nor [uint64] together, each integer rounded to the nearest
    float; an integer that rounds to no float is an [OverflowError], under
    [errors='coerce'] too.  A literal too large for a float is no number. *)
Example to_numeric_large_integers :
  map (fun vs => pd.to_numeric (OneColumn {| s_index := [0; 1]; s_values := vs |}) coerce)
    [[VInt 9007199254740993; VStr "abc"];
     [VInt (2 ^ 63); VInt 1];
     [VInt (2 ^ 63); VInt (-1)];
     [VInt (2 ^ 64); VInt 1];
     [VStr "18446744073709551616"; VStr "1"];
     [VInt (2 ^ 1024); VStr "abc"];
     [VStr "1e309"; VStr "1e308"]]
  = [Ok {| s_index := [0; 1];
           s_values := [VFloat (Finite 9007199254740992 0); VNaN] |};
     Ok {| s_index := [0; 1]; s_values := [VInt (2 ^ 63); VInt 1] |};
     Ok {| s_index := [0; 1];
           s_values := [VFloat (Finite 9223372036854775808 0); VFloat (Finite (-1) 0)] |};
     Ok {| s_index := [0; 1];
           s_values := [VFloat (Finite 18446744073709551616 0); VFloat (Finite 1 0)] |};
     Ok {| s_index := [0; 1];
           s_values := [VFloat (Finite 18446744073709551616 0); VFloat (Finite 1 0)] |};
     Err OverflowError;
     Ok {| s_index := [0; 1]; s_values := [VNaN; VFloat (Finite 1 308)] |}].
Proof. vm_compute. reflexivity. Qed.

(** Lines 110-112 on an integer [str] refuses, alone in its column and with
    another column of the name; on two columns of the name; on a column of
    Python integers that are no [uint64], which becomes one of floats; on a
    column of strings and floats. *)
Example clean_gdp_for_year_examples :
  map clean_gdp_for_year
    [{| index := [0]; data := [("gdp_for_year_$", [VInt (10 ^ 4300 - 1)])] |};
     {| index := [0]; data := [("gdp_for_year_$", [VInt (10 ^ 4300)])] |};
     {| index := [0]; data := [("gdp_for_year_$", [VInt (- 10 ^ 4300)]);
                               ("gdp_for_year_$", [VInt 1])] |};
     {| index := [0]; data := [("gdp_for_year_$", [VInt 2]);
                               ("gdp_for_year_$", [VInt 1])] |};
     {| index := [0]; data := [("gdp_for_year_$", [VInt (2 ^ 64); VInt 1])] |};
     {| index := [0]; data := [("gdp_for_year_$", [VStr "$1,000"; VFloat (Finite 25 (-1))])] |}]
  = [Ok {| index := [0]; data := [("gdp_for_year_$", [VNaN])] |};
     Err ValueError;
     Err ValueError;
     Err AttributeError;
     Ok {| index := [0];
           data := [("gdp_for_year_$",
                     [VFloat (Finite 18446744073709551616 0); VFloat (Finite 1 0)])] |};
     Ok {| index := [0];
           data := [("gdp_for_year_$", [VFloat (Finite 1 3); VFloat (Finite 25 (-1))])] |}].
Proof. vm_compute. reflexivity. Qed.

(** The largest float is [2^1024 - 2^971]; the integers that round to it end
    just below [Num.limit]. *)
Example round_int_examples :
  Num.round_int (Num.limit - 1) = 2 ^ 1024 - 2 ^ 971 /\
  Num.overflows (Num.limit - 1) = false /\
  Num.overflows Num.limit = true /\
  Num.overflows (- Num.limit) = true /\
  map Num.round_int [2 ^ 53 + 1; 2 ^ 53 + 2; 2 ^ 53 + 3; - (2 ^ 53 + 3); 2 ^ 54 + 2; 2 ^ 54 + 6]
  = [2 ^ 53; 2 ^ 53 + 2; 2 ^ 53 + 4; - (2 ^ 53 + 4); 2 ^ 54; 2 ^ 54 + 8].
Proof. vm_compute. repeat split; reflexivity. Qed.

(** The end-to-end scenario of the specification. *)
Example end_to_end :
  clean_dataset albania
  = Ok {| index := [0; 1];
          data := [("country", [VStr "Albania"; VStr "Albania"]);
                   ("year", [VInt 1987; VInt 1988]);
                   ("sex", [VStr "male"; VStr "female"]);
                   ("age", [VStr "15-24 years"; VStr "75+ years"]);
                   ("suicides_no", [VInt 21; VInt 1]);
                   ("population", [VInt 312900; VInt 35600]);
                   ("suicides/100k_pop", [VFloat (Finite 671 (-2)); VFloat (Finite 281 (-2))]);
                   ("country-year", [VStr "Albania1987"; VStr "Albania1987"]);
                   ("gdp_for_year_$", [VInt 2156624900; VInt 2156624900]);
                   ("gdp_per_capita", [VInt 796; VInt 796]);
                   ("generation", [VStr "Generation X"; VStr "G.I. Generation"])] |}.
Proof. vm_compute. reflexivity. Qed.

(** Two columns of one name after standardization: [df[name]] is a table,
    which [pd.to_numeric] refuses. *)
Example name_collision :
  clean_dataset {| index := [0];
                   data := [("suicides_no", [VInt 1]); ("Suicides_No", [VInt 2]);
                            ("gdp_per_capita ($)", [VInt 796])] |}
  = Err TypeError.
Proof. reflexivity. Qed.

(* ===================================================================== *)
(** ** The operations, one by one *)
(* ===================================================================== *)

Section Operations.
Implicit Types (df : DataFrame) (name : string) (vs : list cell).

Lemma zip_fst_snd {A B} (f : A -> A) (l : list (A * B)) :
  zip (map f l.*1) l.*2 = map (fun c => (f c.1, c.2)) l.
Proof. induction l as [|[a b] l IH]; [done |]. simpl. f_equal. exact IH. Qed.

Lemma standardize_columns_eq df : standardize_columns df = Ok (standardized df).
Proof.
  unfold standardize_columns, pd.set_columns, columns.
  rewrite decide_True by (by rewrite length_map, !length_fmap).
  by rewrite zip_fst_snd.
Qed.

(** The only exception a cell raises. *)
Lemma convert_cell_Err (c : cell) e : pd.convert_cell c = Err e -> e = OverflowError.
Proof.
  destruct c as [z| | |]; cbn [pd.convert_cell]; try done.
  destruct (Num.overflows z); [| done]. by intros [= <-].
Qed.

Lemma overflows_limit z : Num.overflows z = negb (Z.abs z <? Num.limit).
Proof.
  unfold Num.overflows, Num.too_large. change (10 ^ Z.max 0 (- 0)) with 1.
  change (10 ^ Z.max 0 0) with 1. rewrite !Z.mul_1_r.
  destruct (Z.leb_spec Num.limit (Z.abs z)), (Z.ltb_spec (Z.abs z) Num.limit); done || lia.
Qed.

(** A cell makes the conversion raise exactly when it is an integer too
    large for a float. *)
Lemma convert_cell_ok c : is_ok (pd.convert_cell c) = representable c.
Proof.
  destruct c as [z| | |]; try done. cbn [pd.convert_cell representable].
  rewrite overflows_limit. by destruct (Z.abs z <? Num.limit).
Qed.

Lemma convert_values_coerce vs :
  pd.convert_values coerce vs
  = if fits vs then Ok (map coerce_cell vs) else Err OverflowError.
Proof.
  induction vs as [|c vs IH]; [done |].
  cbn [pd.convert_values fits forallb map]. rewrite <- convert_cell_ok. unfold coerce_cell.
  destruct (pd.convert_cell c) as [o|e] eqn:Hc; cbn [is_ok andb mbind result_bind].
  - fold (fits vs). rewrite IH. destruct o, (fits vs); done.
  - by rewrite (convert_cell_Err _ _ Hc).
Qed.

(** Under [errors='coerce'] the conversion of a Series raises for an integer
    too large for a float and for nothing else. *)
Lemma to_numeric_coerce s :
  pd.to_numeric (OneColumn s) coerce
  = if fits (s_values s)
    then Ok {| s_index := s_index s; s_values := numeric (s_values s) |}
    else Err OverflowError.
Proof.
  unfold pd.to_numeric. rewrite convert_values_coerce. by destruct (fits _).
Qed.

Lemma column_all_filter (P : list cell -> bool) name df :
  column_all P name df
  = forallb (fun c => P c.2) (filter (fun c => c.1 = name) (data df)).
Proof.
  unfold column_all. induction (data df) as [|c l IH]; [done |].
  rewrite filter_cons. cbn [forallb]. rewrite IH.
  destruct (decide (c.1 = name)) as [Hn | Hn].
  - by rewrite bool_decide_eq_false_2 by (intros ?; done).
  - by rewrite bool_decide_eq_true_2.
Qed.

(** With one column of the name, [column_all] is about its cells. *)
Lemma column_all_singleton (P : list cell -> bool) name df c :
  filter (fun c => c.1 = name) (data df) = [c] -> column_all P name df = P c.2.
Proof. intros Hf. rewrite column_all_filter, Hf. cbn [forallb]. apply andb_true_r. Qed.

Lemma column_all_on_column (P : list cell -> bool) name name' g df :
  name <> name' -> column_all P name (on_column name' g df) = column_all P name df.
Proof.
  intros Hne. unfold column_all, on_column. cbn [data].
  induction (data df) as [|[n vs] l IH]; [done |]. cbn [map forallb fst snd].
  rewrite IH. f_equal. destruct (decide (n = name')) as [-> | Hn]; cbn [fst snd]; [| done].
  by rewrite !bool_decide_eq_true_2 by congruence.
Qed.

Lemma column_all_on_column_same (P : list cell -> bool) name g df :
  (forall vs, P vs = true -> P (g vs) = true) ->
  column_all P name df = true -> column_all P name (on_column name g df) = true.
Proof.
  intros Hg. unfold column_all, on_column. cbn [data].
  induction (data df) as [|[n vs] l IH]; [done |]. cbn [map forallb fst snd].
  intros [Hc Hl]%andb_true_iff. rewrite (IH Hl), andb_true_r.
  destruct (decide (n = name)) as [-> | Hn]; cbn [fst snd]; [| exact Hc].
  rewrite bool_decide_eq_false_2 in Hc by (intros ?; done). cbn [orb] in Hc.
  by rewrite (Hg _ Hc), orb_true_r.
Qed.

Lemma column_all_made (P : list cell -> bool) name g df :
  (forall vs, P (g vs) = true) -> column_all P name (on_column name g df) = true.
Proof.
  intros Hg. unfold column_all, on_column. cbn [data].
  induction (data df) as [|[n vs] l IH]; [done |]. cbn [map forallb fst snd].
  rewrite IH. destruct (decide (n = name)) as [-> | Hn]; cbn [fst snd].
  - by rewrite Hg, orb_true_r.
  - by rewrite bool_decide_eq_true_2.
Qed.

Lemma column_fits_singleton name df c :
  filter (fun c => c.1 = name) (data df) = [c] -> column_fits name df = fits c.2.
Proof. apply column_all_singleton. Qed.

Lemma column_fits_on_column name name' g df :
  name <> name' -> column_fits name (on_column name' g df) = column_fits name df.
Proof. apply column_all_on_column. Qed.

Lemma column_prints_on_column name name' g df :
  name <> name' -> column_prints name (on_column name' g df) = column_prints name df.
Proof. apply column_all_on_column. Qed.

Lemma fits_strings (g : cell -> string) vs : fits (map (fun c => VStr (g c)) vs) = true.
Proof. induction vs as [|c vs IH]; [done |]. cbn [map fits forallb]. exact IH. Qed.

Lemma column_fits_strings name (g : cell -> string) df :
  column_fits name (on_column name (map (fun c => VStr (g c))) df) = true.
Proof. apply column_all_made. intros vs. apply fits_strings. Qed.

Lemma too_long_limit z : Num.too_long z = negb (Z.abs z <? Num.str_limit).
Proof.
  unfold Num.too_long.
  destruct (Z.leb_spec Num.str_limit (Z.abs z)), (Z.ltb_spec (Z.abs z) Num.str_limit);
    done || lia.
Qed.

(** [str] raises exactly for an integer of more than 4300 digits. *)
Lemma str_cell_eq c :
  pd.str_cell c = if printable c then Ok (VStr (str_of_cell c)) else Err ValueError.
Proof.
  destruct c as [z| | |]; try done. cbn [pd.str_cell printable].
  rewrite too_long_limit. by destruct (Z.abs z <? Num.str_limit).
Qed.

Lemma strs_eq vs :
  pd.strs vs
  = if prints vs then Ok (map (fun c => VStr (str_of_cell c)) vs) else Err ValueError.
Proof.
  induction vs as [|c vs IH]; [done |]. cbn [pd.strs prints forallb map].
  rewrite str_cell_eq. destruct (printable c); [| done].
  cbn [mbind result_bind andb]. fold (prints vs). rewrite IH. by destruct (prints vs).
Qed.

Lemma strs_columns_Err cs :
  forallb (fun c => prints c.2) cs = false -> pd.strs_columns cs = Err ValueError.
Proof.
  induction cs as [|c cs IH]; [done |]. cbn [pd.strs_columns forallb].
  rewrite strs_eq. destruct (prints c.2); [| done]. cbn [andb mbind result_bind].
  intros H. by rewrite (IH H).
Qed.

Lemma strs_columns_Ok cs :
  forallb (fun c => prints c.2) cs = true -> is_ok (pd.strs_columns cs) = true.
Proof.
  induction cs as [|c cs IH]; [done |]. cbn [pd.strs_columns forallb].
  rewrite strs_eq. intros [Hc Hl]%andb_true_iff. rewrite Hc. cbn [mbind result_bind].
  specialize (IH Hl). by destruct (pd.strs_columns cs).
Qed.

Lemma has_column_count name df : pd.has_column name df = true <-> count name df <> 0%nat.
Proof.
  unfold pd.has_column, count, columns. rewrite bool_decide_eq_true.
  induction (data df) as [|[n vs] l IH]; simpl.
  - split; [by intros ?%elem_of_nil | done].
  - rewrite filter_cons. simpl. rewrite elem_of_cons. destruct (decide (n = name)) as [->|Hne].
    + simpl. split; [done | by left].
    + rewrite <- IH. split; [intros [?|?]; [congruence | done] | by right].
Qed.

(** The columns called [name], when there is one of them. *)
Lemma filter_singleton name (l : list (string * list cell)) c :
  filter (fun c => c.1 = name) l = [c] ->
  forall c', c' ∈ l -> c'.1 = name -> c' = c.
Proof.
  intros Hf c' Hin Hn.
  assert (c' ∈ filter (fun c => c.1 = name) l) as Hc by (by apply list_elem_of_filter).
  rewrite Hf in Hc. by apply list_elem_of_singleton in Hc.
Qed.

Lemma setitem_own df name vs c :
  filter (fun c => c.1 = name) (data df) = [c] ->
  pd.setitem df name {| s_index := index df; s_values := vs |}
  = Ok {| index := index df;
          data := map (fun c => if decide (c.1 = name) then (name, vs) else c) (data df) |}.
Proof.
  intros Hf. unfold pd.setitem. simpl. rewrite decide_True by done. simpl.
  assert (pd.has_column name df = true) as ->; [| done].
  apply has_column_count. unfold count. by rewrite Hf.
Qed.

Lemma constant_on_column df name (g : list cell -> list cell) c :
  filter (fun c => c.1 = name) (data df) = [c] ->
  map (fun c' => if decide (c'.1 = name) then (name, g c.2) else c') (data df)
  = data (on_column name g df).
Proof.
  intros Hf. simpl. apply map_ext_in. intros c' Hin%list_elem_of_In.
  destruct (decide (c'.1 = name)) as [Hn|]; [| done].
  by rewrite (filter_singleton _ _ _ Hf c' Hin Hn).
Qed.

(** Lines 106 and 107: what the statement does depends on how many columns
    bear the name. *)
Lemma convert_column_eq name df :
  convert_column name df =
  match count name df with
  | 0%nat => Err (KeyError name)
  | 1%nat => if column_fits name df then Ok (on_column name numeric df)
             else Err OverflowError
  | _ => Err TypeError
  end.
Proof.
  unfold convert_column, count, pd.getitem.
  destruct (filter _ (data df)) as [|c [|c' l]] eqn:Hf; [done | | done].
  unfold mbind, result_bind. rewrite to_numeric_coerce.
  cbn [s_index s_values length]. rewrite (column_fits_singleton _ _ _ Hf).
  destruct (fits c.2); [| done]. rewrite (setitem_own _ _ _ _ Hf).
  unfold on_column. do 2 f_equal. exact (constant_on_column _ _ numeric _ Hf).
Qed.

Lemma copy_eq df : pd.copy df = df.
Proof. by destruct df. Qed.

Lemma count_columns name df :
  count name df = length (filter (fun n => n = name) (columns df)).
Proof.
  unfold count, columns. induction (data df) as [|[n vs] l IH]; [done |].
  rewrite fmap_cons, !filter_cons. simpl. destruct (decide (n = name)); simpl; by rewrite IH.
Qed.

Lemma on_column_columns name g df : columns (on_column name g df) = columns df.
Proof.
  unfold columns, on_column. simpl. induction (data df) as [|[n vs] l IH]; [done |].
  simpl. f_equal; [| exact IH]. by destruct (decide (n = name)).
Qed.

(** A conversion keeps the names, hence how often each occurs. *)
Lemma count_on_column name' name g df : count name' (on_column name g df) = count name' df.
Proof. by rewrite !count_columns, on_column_columns. Qed.

Lemma on_column_twice name g g' df :
  on_column name g' (on_column name g df) = on_column name (fun vs => g' (g vs)) df.
Proof.
  unfold on_column. simpl. f_equal. rewrite map_map. apply map_ext. intros [n vs]. simpl.
  destruct (decide (n = name)); simpl; [by rewrite decide_True | by rewrite decide_False].
Qed.

Lemma on_column_absent name g df : count name df = 0%nat -> on_column name g df = df.
Proof.
  unfold count, on_column. destruct df as [idx l]. simpl. intros Hc. f_equal.
  induction l as [|[n vs] l IH]; [done |].
  rewrite filter_cons in Hc. simpl in *. destruct (decide (n = name)); [done |].
  by rewrite IH.
Qed.

(** After [astype(str)] a Series has a [.str]. *)
Lemma strs_accepted vs :
  existsb is_str (map (fun c => VStr (str_of_cell c)) vs)
  || forallb is_missing (map (fun c => VStr (str_of_cell c)) vs) = true.
Proof. by destruct vs. Qed.

Lemma replace_strs vs :
  map (fun c => match c with
                | VStr t => VStr (Str.replace_class ["$"; ","]%char "" t)
                | _ => VNaN
                end) (map (fun c => VStr (str_of_cell c)) vs)
  = map strip_currency vs.
Proof. rewrite map_map. by apply map_ext. Qed.

(** Lines 110-112. *)
Lemma clean_gdp_for_year_eq df :
  clean_gdp_for_year df =
  match count "gdp_for_year_$" df with
  | 0%nat => Ok df
  | 1%nat => if column_prints "gdp_for_year_$" df
             then Ok (on_column "gdp_for_year_$" currency df)
             else Err ValueError
  | _ => if column_prints "gdp_for_year_$" df then Err AttributeError
         else Err ValueError
  end.
Proof.
  unfold clean_gdp_for_year.
  destruct (pd.has_column _ df) eqn:Hh.
  - apply has_column_count in Hh. revert Hh.
    unfold column_prints. rewrite column_all_filter. unfold count at 1 2, pd.getitem.
    destruct (filter _ (data df)) as [|c [|c' l]] eqn:Hf; [done | |].
    + intros _. cbn [forallb length]. rewrite andb_true_r.
      unfold mbind at 1, result_bind at 1. unfold pd.astype_str.
      cbn [s_index s_values]. rewrite strs_eq. destruct (prints c.2); [| done].
      unfold mbind, result_bind, pd.str_replace_class.
      cbn [s_index s_values]. rewrite strs_accepted, replace_strs.
      rewrite (setitem_own _ _ _ _ Hf), (constant_on_column _ _ (map strip_currency) _ Hf).
      change {| index := index df; data := data (on_column ?n ?g df) |}
        with (on_column n g df).
      rewrite convert_column_eq, count_on_column. unfold count at 1. rewrite Hf.
      cbn [length]. unfold strip_currency. rewrite (column_fits_strings _ _ df).
      by rewrite on_column_twice.
    + intros _. cbn [length]. unfold mbind at 1, result_bind at 1. unfold pd.astype_str.
      cbn [index data].
      destruct (forallb (fun c0 => prints c0.2) (c :: c' :: l)) eqn:Hp.
      * apply strs_columns_Ok in Hp. by destruct (pd.strs_columns _).
      * by rewrite (strs_columns_Err _ Hp).
  - destruct (count _ df) eqn:Hc; [done |].
    assert (pd.has_column "gdp_for_year_$" df = true) as Hh'; [| congruence].
    apply has_column_count. lia.
Qed.

(** Line 115. *)
Lemma drop_hdi_eq df :
  drop_hdi df
  = Ok {| index := index df; data := filter (fun c => c.1 <> "hdi_for_year") (data df) |}.
Proof.
  unfold drop_hdi, pd.drop. do 2 f_equal. apply list_filter_iff. intros [n vs]. simpl.
  rewrite list_elem_of_singleton. done.
Qed.

(** The five changes to the table, composed. *)
Lemma cleaned_eq raw :
  pd.rename [("gdp_per_capita_$", "gdp_per_capita")]
    {| index := index raw;
       data := filter (fun c => c.1 <> "hdi_for_year")
                 (data (on_column "gdp_for_year_$" currency
                          (on_column "gdp_per_capita_$" numeric
                             (on_column "suicides_no" numeric (standardized raw))))) |}
  = cleaned raw.
Proof.
  unfold pd.rename, cleaned, on_column, standardized. simpl. f_equal.
  induction (data raw) as [|[n vs] l IH]; [done |].
  simpl. generalize (standardize n). intros n'.
  rewrite !filter_cons. simpl.
  destruct (decide (n' = "suicides_no")) as [->|H1]; [simpl; f_equal; exact IH |].
  simpl. destruct (decide (n' = "gdp_per_capita_$")) as [->|H2]; [simpl; f_equal; exact IH |].
  simpl. destruct (decide (n' = "gdp_for_year_$")) as [->|H3]; [simpl; f_equal; exact IH |].
  simpl. destruct (decide (n' <> "hdi_for_year")) as [H4|H4]; [| exact IH].
  simpl. f_equal; [| exact IH]. unfold clean_column. simpl.
  f_equal. rewrite (decide_False (P := _ \/ _)) by tauto. by rewrite decide_False.
Qed.

(** [clean_dataset], case by case: which exception it raises or which table
    it returns is settled by how many columns bear each of three names once
    the names are standardized. *)
Lemma clean_dataset_eq raw :
  clean_dataset raw =
  match count "suicides_no" (standardized raw) with
  | 0%nat => Err (KeyError "suicides_no")
  | 1%nat =>
      if column_fits "suicides_no" (standardized raw) then
        match count "gdp_per_capita_$" (standardized raw) with
        | 0%nat => Err (KeyError "gdp_per_capita_$")
        | 1%nat =>
            if column_fits "gdp_per_capita_$" (standardized raw) then
              match count "gdp_for_year_$" (standardized raw) with
              | 0%nat => Ok (cleaned raw)
              | 1%nat =>
                  if column_prints "gdp_for_year_$" (standardized raw)
                  then Ok (cleaned raw) else Err ValueError
              | _ =>
                  if column_prints "gdp_for_year_$" (standardized raw)
                  then Err AttributeError else Err ValueError
              end
            else Err OverflowError
        | _ => Err TypeError
        end
      else Err OverflowError
  | _ => Err TypeError
  end.
Proof.
  unfold clean_dataset. rewrite copy_eq, standardize_columns_eq.
  unfold mbind at 1, result_bind at 1. rewrite convert_column_eq.
  destruct (count "suicides_no" _) as [|[|?]]; [done | | done].
  destruct (column_fits "suicides_no" _); [| done].
  unfold mbind at 1, result_bind at 1.
  rewrite convert_column_eq, count_on_column, column_fits_on_column by done.
  destruct (count "gdp_per_capita_$" _) as [|[|?]]; [done | | done].
  destruct (column_fits "gdp_per_capita_$" _); [| done].
  unfold mbind at 1, result_bind at 1.
  rewrite clean_gdp_for_year_eq, !count_on_column, !column_prints_on_column by done.
  destruct (count "gdp_for_year_$" _) as [|[|?]] eqn:Hc;
    [| | by destruct (column_prints _ _)].
  - unfold mbind at 1, result_bind at 1. rewrite drop_hdi_eq.
    unfold mbind, result_bind, rename_columns. rewrite <- cleaned_eq.
    rewrite (on_column_absent "gdp_for_year_$"); [done |]. by rewrite !count_on_column.
  - destruct (column_prints _ _); [| done].
    unfold mbind at 1, result_bind at 1. rewrite drop_hdi_eq.
    unfold mbind, result_bind, rename_columns. by rewrite <- cleaned_eq.
Qed.

End Operations.

(* ===================================================================== *)
(** ** The table [clean_dataset] returns *)
(* ===================================================================== *)

Section Cleaning.
Implicit Types (raw clean df : DataFrame) (name : string) (vs : list cell).

Lemma clean_dataset_Ok raw clean :
  clean_dataset raw = Ok clean ->
  clean = cleaned raw /\
  count "suicides_no" (standardized raw) = 1%nat /\
  count "gdp_per_capita_$" (standardized raw) = 1%nat /\
  (count "gdp_for_year_$" (standardized raw) <= 1)%nat.
Proof.
  rewrite clean_dataset_eq.
  destruct (count "suicides_no" _) as [|[|?]]; [done | | done].
  destruct (column_fits "suicides_no" _); [| done].
  destruct (count "gdp_per_capita_$" _) as [|[|?]]; [done | | done].
  destruct (column_fits "gdp_per_capita_$" _); [| done].
  destruct (count "gdp_for_year_$" _) as [|[|?]];
    [| destruct (column_prints _ _); [| done] | by destruct (column_prints _ _)];
    intros [= <-]; repeat split; lia.
Qed.

Lemma clean_dataset_fits raw clean :
  clean_dataset raw = Ok clean ->
  column_fits "suicides_no" (standardized raw) = true /\
  column_fits "gdp_per_capita_$" (standardized raw) = true.
Proof.
  rewrite clean_dataset_eq.
  destruct (count "suicides_no" _) as [|[|?]]; [done | | done].
  destruct (column_fits "suicides_no" _); [| done].
  destruct (count "gdp_per_capita_$" _) as [|[|?]]; [done | | done].
  by destruct (column_fits "gdp_per_capita_$" _).
Qed.

Lemma elem_of_standardized raw name vs :
  (name, vs) ∈ data (standardized raw) <->
  exists o, (o, vs) ∈ data raw /\ standardize o = name.
Proof.
  unfold standardized. simpl. change (map ?f ?l) with (f <$> l).
  rewrite list_elem_of_fmap. split.
  - intros ([o vs'] & [= -> ->] & Hin). eauto.
  - intros (o & Hin & <-). by exists (o, vs).
Qed.

Lemma elem_of_on_column name g df n vs :
  (n, vs) ∈ data (on_column name g df) <->
  (n = name /\ exists vs0, (name, vs0) ∈ data df /\ vs = g vs0) \/
  (n <> name /\ (n, vs) ∈ data df).
Proof.
  unfold on_column. simpl. change (map ?f ?l) with (f <$> l).
  rewrite list_elem_of_fmap. split.
  - intros ([n0 vs0] & Heq & Hin). simpl in Heq.
    destruct (decide (n0 = name)) as [->|Hne]; injection Heq as -> ->; [left | right]; eauto.
  - intros [(-> & vs0 & Hin & ->) | (Hne & Hin)].
    + exists (name, vs0). simpl. by rewrite decide_True.
    + exists (n, vs). simpl. by rewrite decide_False.
Qed.

Lemma elem_of_cleaned raw c :
  c ∈ data (cleaned raw) <->
  exists o vs, (o, vs) ∈ data raw /\ standardize o <> "hdi_for_year" /\
               c = clean_column (standardize o, vs).
Proof.
  unfold cleaned. cbn [data]. change (map ?f ?l) with (f <$> l).
  rewrite list_elem_of_fmap. split.
  - intros ([n vs] & -> & [Hn Hin]%list_elem_of_filter).
    apply elem_of_standardized in Hin as (o & Hin & <-). eauto.
  - intros (o & vs & Hin & Hn & ->). eexists. split; [done |].
    apply list_elem_of_filter. split; [done |]. apply elem_of_standardized. eauto.
Qed.

Lemma count_elem_of name df :
  count name df <> 0%nat -> exists vs, (name, vs) ∈ data df.
Proof.
  unfold count. destruct (filter _ (data df)) as [|[n vs] l] eqn:Hf; [done |]. intros _.
  assert ((n, vs) ∈ filter (fun c => c.1 = name) (data df)) as Hin by (rewrite Hf; left).
  apply list_elem_of_filter in Hin as [Hn Hin]. simpl in Hn. subst. eauto.
Qed.

(** The name of a cleaned column. *)
Lemma renamed_cases n :
  (n = "gdp_per_capita_$" /\
   pd.renamed [("gdp_per_capita_$", "gdp_per_capita")] n = "gdp_per_capita") \/
  (n <> "gdp_per_capita_$" /\ pd.renamed [("gdp_per_capita_$", "gdp_per_capita")] n = n).
Proof.
  simpl. destruct (decide ("gdp_per_capita_$" = n)) as [<-|Hne]; [by left | right].
  split; congruence.
Qed.

(** *** Cells *)

Lemma coerce_cell_numeric c : numeric_or_missing (coerce_cell c).
Proof.
  destruct c as [z|f|s|]; try done; unfold coerce_cell, pd.convert_cell.
  - by destruct (Num.overflows z).
  - destruct (decide (s = "")); [done |]. unfold Num.parse.
    destruct (Num.literal s) as [[z|[m e|neg]]|].
    + by destruct (Num.overflows z).
    + by destruct (Num.too_large m e).
    + done.
    + by destruct (Num.infinity s).
Qed.

(** An integer of magnitude at most [2^53] is a float. *)
Lemma round_int_exact z : Z.abs z <= 2 ^ 53 -> Num.round_int z = z.
Proof.
  intros Hz. unfold Num.round_int. cbv zeta.
  destruct (Z.ltb_spec (Z.abs z) (2 ^ 53)) as [| Hge]; [done |].
  assert (Z.abs z = 2 ^ 53) as Ha by lia. rewrite Ha.
  change (Z.log2 (2 ^ 53) - 52) with 1. change (2 ^ 53 mod 2 ^ 1) with 0.
  change (2 ^ (1 - 1) <? 0) with false. change (0 =? 2 ^ (1 - 1)) with false.
  cbn [orb andb]. change (2 ^ 53 / 2 ^ 1 * 2 ^ 1) with (2 ^ 53). lia.
Qed.

Lemma float_of_Z_exact z : Z.abs z <= 2 ^ 53 -> Num.float_of_Z z = Num.mk_float z 0.
Proof. intros Hz. unfold Num.float_of_Z. by rewrite round_int_exact. Qed.

Lemma limit_64 : 2 ^ 64 <= Num.limit.
Proof. vm_compute. discriminate. Qed.

Lemma machine_int_representable c : machine_int c = true -> representable c = true.
Proof.
  destruct c as [z| | |]; try done. unfold machine_int, representable, pd.int64, pd.uint64.
  pose proof limit_64 as Hl. intros H. apply Z.ltb_lt.
  apply orb_true_iff in H as [H | H]; apply andb_true_iff in H as [H1 H2];
    apply Z.leb_le in H1; apply Z.ltb_lt in H2; lia.
Qed.

(** A column of 64-bit integers, floats, strings and NaN holds no integer
    too large for a float. *)
Lemma machine_int_fits vs : forallb machine_int vs = true -> fits vs = true.
Proof.
  unfold fits. rewrite !forallb_forall. intros H c Hc.
  apply machine_int_representable. by apply H.
Qed.

Lemma to_float_numeric c : numeric_or_missing c -> numeric_or_missing (pd.to_float c).
Proof. by destruct c. Qed.

(** A column read as numbers, cell by cell: each cell is the reading of the
    cell in the same row, as an integer or as a float. *)
Lemma numeric_map (g : cell -> cell) vs :
  Forall2 (fun x y => read_from (g x) y) vs (numeric (map g vs)).
Proof.
  unfold numeric, pd.unify. destruct (pd.needs_float _).
  - induction vs as [|x vs IH]; simpl; constructor; [by right | exact IH].
  - induction vs as [|x vs IH]; simpl; constructor; [by left | exact IH].
Qed.

Lemma numeric_cells vs : Forall2 read_from vs (numeric vs).
Proof. rewrite <- (map_id vs) at 2. apply (numeric_map id). Qed.

Lemma numeric_numeric vs : Forall numeric_or_missing (numeric vs).
Proof.
  generalize (numeric_cells vs). induction 1 as [|x y ? ? [-> | ->]]; constructor;
    auto using coerce_cell_numeric, to_float_numeric.
Qed.

Lemma coerce_cell_representable c : representable c = true -> representable (coerce_cell c) = true.
Proof.
  destruct c as [z|f|s|]; try done; unfold coerce_cell, pd.convert_cell.
  - by destruct (Num.overflows z).
  - intros _. destruct (decide (s = "")); [done |]. unfold Num.parse.
    destruct (Num.literal s) as [[z|[m e|neg]]|].
    + rewrite overflows_limit. by destruct (Z.abs z <? Num.limit) eqn:E.
    + by destruct (Num.too_large m e).
    + done.
    + by destruct (Num.infinity s).
Qed.

(** A column that can be converted is one that can be converted again. *)
Lemma fits_numeric vs : fits vs = true -> fits (numeric vs) = true.
Proof.
  unfold fits, numeric, pd.unify. rewrite !forallb_forall. intros H.
  assert (forall c, In c (map coerce_cell vs) -> representable c = true) as H'.
  { intros c (c0 & <- & Hin)%in_map_iff. by apply coerce_cell_representable, H. }
  destruct (pd.needs_float _); [| exact H'].
  intros c (c0 & <- & Hin)%in_map_iff. specialize (H' c0 Hin). by destruct c0.
Qed.

Lemma column_fits_numeric name df :
  column_fits name df = true -> column_fits name (on_column name numeric df) = true.
Proof. apply column_all_on_column_same, fits_numeric. Qed.

Lemma column_all_spec (P : list cell -> bool) name df :
  column_all P name df = true <-> forall vs, (name, vs) ∈ data df -> P vs = true.
Proof.
  unfold column_all. rewrite forallb_forall. split.
  - intros H vs Hin%list_elem_of_In. specialize (H _ Hin). cbn [fst snd] in H.
    by rewrite bool_decide_eq_false_2 in H by (intros ?; done).
  - intros H [n vs] Hin%list_elem_of_In. cbn [fst snd].
    destruct (decide (n = name)) as [-> | Hn]; [| by rewrite bool_decide_eq_true_2].
    by rewrite (H vs Hin), orb_true_r.
Qed.

Lemma column_fits_spec name df :
  column_fits name df = true <-> forall vs, (name, vs) ∈ data df -> fits vs = true.
Proof. apply column_all_spec. Qed.

Lemma limit_str_limit : Num.limit <= Num.str_limit.
Proof. vm_compute. discriminate. Qed.

Lemma representable_printable c : representable c = true -> printable c = true.
Proof.
  destruct c as [z| | |]; try done. cbn [representable printable].
  pose proof limit_str_limit. rewrite !Z.ltb_lt. lia.
Qed.

Lemma fits_prints vs : fits vs = true -> prints vs = true.
Proof.
  unfold fits, prints. rewrite !forallb_forall. intros H c Hc.
  by apply representable_printable, H.
Qed.

(** What is read from strings can be written. *)
Lemma prints_currency vs : prints (currency vs) = true.
Proof.
  apply fits_prints. unfold currency. apply fits_numeric.
  unfold strip_currency. apply fits_strings.
Qed.

Lemma cleaned_cells raw c :
  c ∈ data (cleaned raw) -> exists c0, c0 ∈ data raw /\ Forall2 from_cell c0.2 c.2.
Proof.
  intros (o & vs & Hin & _ & ->)%elem_of_cleaned. exists (o, vs). split; [done |].
  unfold clean_column. cbn [fst snd].
  destruct (decide _); [| destruct (decide _)].
  - eapply Forall2_impl; [apply numeric_cells |]. intros x y ?. right. by left.
  - eapply Forall2_impl; [apply (numeric_map strip_currency) |]. intros x y ?. right. by right.
  - apply Forall_Forall2_diag, Forall_forall. intros x _. by left.
Qed.

End Cleaning.

(* ===================================================================== *)
(** ** Rows *)
(* ===================================================================== *)

(** C1.  The table [clean_dataset] returns has the row labels of its input,
    in the same order, hence as many rows; each of its columns comes from a
    column of the input, row by row: the cell of a row is made from the cell
    of the same row.  No row is removed, added or moved. *)
Theorem C1_rows_preserved (raw clean : DataFrame) :
  clean_dataset raw = Ok clean ->
  nrows clean = nrows raw /\
  index clean = index raw /\
  Forall (fun c => exists c0, c0 ∈ data raw /\ Forall2 from_cell c0.2 c.2) (data clean) /\
  (wf raw -> wf clean).
Proof.
  intros (-> & _)%clean_dataset_Ok. split; [done |]. split; [done |].
  assert (Forall (fun c => exists c0, c0 ∈ data raw /\ Forall2 from_cell c0.2 c.2)
            (data (cleaned raw))) as Hcols.
  { apply Forall_forall. intros c. apply cleaned_cells. }
  split; [exact Hcols |].
  unfold wf. intros Hwf. rewrite Forall_forall in Hwf.
  eapply Forall_impl; [exact Hcols |]. intros c (c0 & Hin & Hcells). simpl.
  rewrite <- (Forall2_length _ _ _ Hcells). by apply Hwf.
Qed.

Lemma C1_rows_preserved_witness :
  nrows (cleaned albania) = nrows albania /\
  index (cleaned albania) = index albania /\
  Forall (fun c => exists c0, c0 ∈ data albania /\ Forall2 from_cell c0.2 c.2)
    (data (cleaned albania)) /\
  (wf albania -> wf (cleaned albania)).
Proof. apply (C1_rows_preserved albania (cleaned albania)). vm_compute. reflexivity. Defined.

(* ===================================================================== *)
(** ** Numeric coercion *)
(* ===================================================================== *)

(** C2, as the specification states it, fails: the conversion of line 106
    raises on this table, which has both columns.  Its [suicides_no] column
    holds the integer [2^1024], which [pd.to_numeric] cannot store as a
    float; [errors='coerce'] covers what cannot be parsed, not this. *)
Lemma C2_never_raises_counterexample :
  count "suicides_no" (standardized huge_count) = 1%nat /\
  count "gdp_per_capita_$" (standardized huge_count) = 1%nat /\
  pd.to_numeric
    (OneColumn {| s_index := [0; 1]; s_values := [VInt (2 ^ 1024); VStr "abc"] |}) coerce
  = Err OverflowError /\
  (df ← standardize_columns (pd.copy huge_count);
   df ← convert_column "suicides_no" df;
   convert_column "gdp_per_capita_$" df) = Err OverflowError /\
  clean_dataset huge_count = Err OverflowError.
Proof. repeat split; vm_compute; reflexivity. Qed.

(** C2, amended.  Take a table where, once the names are standardized, one
    column is called [suicides_no] and one [gdp_per_capita_$].  When neither
    column holds an integer too large for a float, lines 100-107 raise
    nothing: they yield a table, in which every cell of these two columns is
    a number or NaN, read from the cell of the same row of the input.  When
    one of them holds such an integer they raise [OverflowError], and they
    raise nothing else.  So does [pd.to_numeric] under [errors='coerce'] on
    any column; a column of 64-bit integers, floats, strings and NaN holds no
    such integer.  A string that is not a number, such as ["abc"], is read as
    NaN.  The cells stay so in the table [clean_dataset] returns: a column it
    calls [suicides_no] or [gdp_per_capita] holds numbers and NaN only, unless
    the input already had a column of the latter name, which is left as it
    is. *)
Theorem C2_coercion (raw : DataFrame) :
  count "suicides_no" (standardized raw) = 1%nat ->
  count "gdp_per_capita_$" (standardized raw) = 1%nat ->
  (column_fits "suicides_no" (standardized raw) = true ->
   column_fits "gdp_per_capita_$" (standardized raw) = true ->
   exists df,
     (df ← standardize_columns (pd.copy raw);
      df ← convert_column "suicides_no" df;
      convert_column "gdp_per_capita_$" df) = Ok df /\
     forall name vs,
       name = "suicides_no" \/ name = "gdp_per_capita_$" ->
       (name, vs) ∈ data df ->
       Forall numeric_or_missing vs /\
       exists o vs0, (o, vs0) ∈ data raw /\ standardize o = name /\
                     Forall2 read_from vs0 vs) /\
  (forall e,
      (df ← standardize_columns (pd.copy raw);
       df ← convert_column "suicides_no" df;
       convert_column "gdp_per_capita_$" df) = Err e ->
      e = OverflowError /\
      (column_fits "suicides_no" (standardized raw) = false \/
       column_fits "gdp_per_capita_$" (standardized raw) = false)) /\
  (forall s, pd.to_numeric (OneColumn s) coerce
             = if fits (s_values s)
               then Ok {| s_index := s_index s; s_values := numeric (s_values s) |}
               else Err OverflowError) /\
  (forall vs, forallb machine_int vs = true -> fits vs = true) /\
  (forall t, Num.parse t = None -> coerce_cell (VStr t) = VNaN) /\
  coerce_cell (VStr "abc") = VNaN /\
  pd.to_numeric (OneColumn {| s_index := [0]; s_values := [VStr "abc"] |}) coerce
  = Ok {| s_index := [0]; s_values := [VNaN] |} /\
  (forall clean vs,
      clean_dataset raw = Ok clean ->
      (("suicides_no", vs) ∈ data clean -> Forall numeric_or_missing vs) /\
      (("gdp_per_capita", vs) ∈ data clean ->
       Forall numeric_or_missing vs \/
       exists o, standardize o = "gdp_per_capita" /\ (o, vs) ∈ data raw)).
Proof.
  intros H1 H2.
  assert ((df ← standardize_columns (pd.copy raw);
           df ← convert_column "suicides_no" df;
           convert_column "gdp_per_capita_$" df)
          = if column_fits "suicides_no" (standardized raw)
            then if column_fits "gdp_per_capita_$" (standardized raw)
                 then Ok (on_column "gdp_per_capita_$" numeric
                            (on_column "suicides_no" numeric (standardized raw)))
                 else Err OverflowError
            else Err OverflowError) as Hlines.
  { rewrite copy_eq, standardize_columns_eq. unfold mbind at 1, result_bind at 1.
    rewrite convert_column_eq, H1. destruct (column_fits "suicides_no" _); [| done].
    unfold mbind, result_bind.
    by rewrite convert_column_eq, count_on_column, H2, column_fits_on_column. }
  rewrite Hlines. split; [| split; [| split; [| split; [| split; [| split; [| split]]]]]].
  - intros -> ->. eexists. split; [done |]. intros name vs Hname Hin.
    apply elem_of_on_column in Hin as [(-> & vs0 & Hin & ->) | (Hne & Hin)].
    + apply elem_of_on_column in Hin as [(? & _) | (_ & Hin)]; [done |].
      apply elem_of_standardized in Hin as (o & Hin & Ho).
      split; [apply numeric_numeric |]. exists o, vs0. auto using numeric_cells.
    + destruct Hname as [-> | ->]; [| done].
      apply elem_of_on_column in Hin as [(_ & vs0 & Hin & ->) | (? & _)]; [| done].
      apply elem_of_standardized in Hin as (o & Hin & Ho).
      split; [apply numeric_numeric |]. exists o, vs0. auto using numeric_cells.
  - intros e. destruct (column_fits "suicides_no" _).
    + destruct (column_fits "gdp_per_capita_$" _); [done |]. intros [= <-]. auto.
    + intros [= <-]. auto.
  - exact to_numeric_coerce.
  - exact machine_int_fits.
  - intros t Ht. unfold coerce_cell, pd.convert_cell. rewrite Ht. by destruct (decide _).
  - reflexivity.
  - reflexivity.
  - intros clean vs (-> & _)%clean_dataset_Ok. split.
    + intros (o & vs0 & Hin & _ & Heq)%elem_of_cleaned.
      unfold clean_column in Heq. cbn [fst snd] in Heq.
      destruct (renamed_cases (standardize o)) as [[Ho Hr] | [Ho Hr]];
        rewrite Hr in Heq; [discriminate Heq |]. injection Heq as Hn ->.
      rewrite decide_True by (by left). apply numeric_numeric.
    + intros (o & vs0 & Hin & _ & Heq)%elem_of_cleaned.
      unfold clean_column in Heq. cbn [fst snd] in Heq.
      destruct (renamed_cases (standardize o)) as [[Ho Hr] | [Ho Hr]];
        rewrite Hr in Heq.
      * injection Heq as ->. left. rewrite decide_True by (by right). apply numeric_numeric.
      * injection Heq as Hn ->. right. exists o. split; [done |].
        rewrite decide_False by (rewrite <- Hn; intros [? | ?]; done).
        by rewrite decide_False by (by rewrite <- Hn).
Qed.

Lemma C2_coercion_witness :
  exists df,
    (df ← standardize_columns (pd.copy two_columns);
     df ← convert_column "suicides_no" df;
     convert_column "gdp_per_capita_$" df) = Ok df /\
    data df = [("suicides_no", [VNaN; VFloat (Finite 4 0)]);
               ("gdp_per_capita_$", [VFloat (Finite 796 0); VNaN])].
Proof.
  destruct (C2_coercion two_columns) as (H & _); [reflexivity | reflexivity |].
  destruct H as (df & Hdf & _); [vm_compute; reflexivity | vm_compute; reflexivity |].
  exists df. split; [exact Hdf |].
  vm_compute in Hdf. injection Hdf as <-. reflexivity.
Defined.

(* ===================================================================== *)
(** ** Absent columns *)
(* ===================================================================== *)

(** C3, as the specification states it, fails: on this table, which has no
    GDP-per-year column, [clean_dataset] returns a table.  Line 110 guards
    the conversion of that column with a test for its presence. *)
Lemma C3_gdp_for_year_absent_counterexample :
  count "gdp_for_year_$" (standardized two_columns) = 0%nat /\
  clean_dataset two_columns
  = Ok {| index := [0; 1];
          data := [("suicides_no", [VNaN; VFloat (Finite 4 0)]);
                   ("gdp_per_capita", [VFloat (Finite 796 0); VNaN])] |}.
Proof. split; reflexivity. Qed.

(** C3, amended.  When no column is called [suicides_no] once the names are
    standardized, [clean_dataset] raises [KeyError] for that name; when none
    is called [gdp_per_capita_$] it raises too: if [suicides_no] is there
    once, [KeyError] for that name, or [OverflowError] when the [suicides_no]
    column holds an integer too large for a float.  When the table only lacks
    [gdp_for_year_$], the step is skipped and the table is returned, unless
    one of the other two columns holds such an integer. *)
Theorem C3_absent_column (raw : DataFrame) :
  (count "suicides_no" (standardized raw) = 0%nat ->
   clean_dataset raw = Err (KeyError "suicides_no")) /\
  (count "gdp_per_capita_$" (standardized raw) = 0%nat ->
   exists e, clean_dataset raw = Err e /\
             (count "suicides_no" (standardized raw) = 1%nat ->
              e = if column_fits "suicides_no" (standardized raw)
                  then KeyError "gdp_per_capita_$" else OverflowError)) /\
  (count "gdp_for_year_$" (standardized raw) = 0%nat ->
   count "suicides_no" (standardized raw) = 1%nat ->
   count "gdp_per_capita_$" (standardized raw) = 1%nat ->
   clean_dataset raw
   = if column_fits "suicides_no" (standardized raw) &&
        column_fits "gdp_per_capita_$" (standardized raw)
     then Ok (cleaned raw) else Err OverflowError).
Proof.
  rewrite clean_dataset_eq. split; [| split].
  - by intros ->.
  - intros ->. destruct (count "suicides_no" _) as [|[|?]];
      [| destruct (column_fits "suicides_no" _) |]; eexists; split; done.
  - intros -> -> ->. by destruct (column_fits "suicides_no" _), (column_fits _ _).
Qed.

Lemma C3_absent_column_witness :
  clean_dataset no_suicides_no = Err (KeyError "suicides_no") /\
  (exists e, clean_dataset no_gdp_per_capita = Err e) /\
  clean_dataset two_columns = Ok (cleaned two_columns).
Proof.
  split; [| split].
  - destruct (C3_absent_column no_suicides_no) as (H & _ & _). apply H. reflexivity.
  - destruct (C3_absent_column no_gdp_per_capita) as (_ & H & _).
    destruct H as (e & He & _); [reflexivity |]. by exists e.
  - destruct (C3_absent_column two_columns) as (_ & _ & H).
    rewrite H by reflexivity.
    assert (column_fits "suicides_no" (standardized two_columns) &&
            column_fits "gdp_per_capita_$" (standardized two_columns) = true) as ->
      by (vm_compute; reflexivity).
    reflexivity.
Defined.

(* ===================================================================== *)
(** ** Integers written and read back *)
(* ===================================================================== *)

Section Integers.
Implicit Types (u : Decimal.uint) (z acc n : Z).

Lemma digits_string_of_uint u acc n :
  Num.digits (Str.chars (NilEmpty.string_of_uint u)) acc n
  = (uint_acc u acc, n + Z.of_nat (Decimal.nb_digits u), []).
Proof.
  revert acc n. induction u as [|u IH|u IH|u IH|u IH|u IH|u IH|u IH|u IH|u IH|u IH];
    intros acc n; cbn [NilEmpty.string_of_uint Str.chars Decimal.nb_digits uint_acc].
  1: { cbn. do 2 f_equal. lia. }
  all: cbn [Num.digits]; change (Str.is_digit _) with true; cbv iota; rewrite IH;
    match goal with
    | |- (uint_acc _ ?x, ?m, _) = (uint_acc _ ?x', ?m', _) =>
        replace m with m' by lia;
        replace x with x'; [reflexivity | vm_compute (Str.code _); lia]
    end.
Qed.

Lemma of_uint_acc_value u (p : positive) : Z.pos (Pos.of_uint_acc u p) = uint_acc u (Z.pos p).
Proof.
  revert p. induction u as [|u IH|u IH|u IH|u IH|u IH|u IH|u IH|u IH|u IH|u IH];
    intros p; cbn [Pos.of_uint_acc uint_acc]; [done | ..];
    rewrite IH; f_equal; lia.
Qed.

Lemma of_uint_value u : Z.of_uint u = uint_acc u 0.
Proof.
  unfold Z.of_uint.
  induction u as [|u IH|u IH|u IH|u IH|u IH|u IH|u IH|u IH|u IH|u IH];
    cbn [Pos.of_uint uint_acc Z.of_N]; [done | exact IH | ..];
    rewrite of_uint_acc_value; f_equal.
Qed.

(** The digits Python writes have no [$] and no [,]. *)
Lemma replace_class_uint u :
  Str.replace_class ["$"; ","]%char "" (NilEmpty.string_of_uint u)
  = NilEmpty.string_of_uint u.
Proof.
  induction u as [|u IH|u IH|u IH|u IH|u IH|u IH|u IH|u IH|u IH|u IH];
    cbn [NilEmpty.string_of_uint]; [done | ..];
    cbn [Str.replace_class]; change (existsb _ _) with false; cbv iota; by rewrite IH.
Qed.

Lemma sign_string_of_uint u :
  u <> Decimal.Nil ->
  Num.sign (Num.skip_space (Str.chars (NilEmpty.string_of_uint u)))
  = (false, Str.chars (NilEmpty.string_of_uint u)).
Proof. destruct u; [done | ..]; reflexivity. Qed.

Lemma nb_digits_pos u : u <> Decimal.Nil -> (0 < Decimal.nb_digits u)%nat.
Proof. destruct u; [done | ..]; simpl; lia. Qed.

Lemma literal_uint u :
  u <> Decimal.Nil ->
  Num.literal (NilEmpty.string_of_uint u) = Some (Num.Int (uint_acc u 0)) /\
  Num.literal (String "-" (NilEmpty.string_of_uint u)) = Some (Num.Int (- uint_acc u 0)).
Proof.
  intros Hu. pose proof (nb_digits_pos u Hu) as Hnb. unfold Num.literal. split.
  - rewrite sign_string_of_uint, digits_string_of_uint by done.
    cbn [Num.fraction Num.exponent Num.skip_space].
    rewrite (proj2 (Z.eqb_neq _ 0)) by lia. done.
  - change (Num.sign (Num.skip_space (Str.chars (String "-" ?s))))
      with (true, Str.chars s).
    cbv beta iota. rewrite digits_string_of_uint.
    cbn [Num.fraction Num.exponent Num.skip_space].
    rewrite (proj2 (Z.eqb_neq _ 0)) by lia. done.
Qed.

Lemma literal_of_Z z : Num.literal (Str.of_Z z) = Some (Num.Int z).
Proof.
  unfold Str.of_Z. destruct z as [|p|p]; [reflexivity | |];
    cbn [Z.to_int NilZero.string_of_int];
    pose proof (DecimalPos.Unsigned.to_uint_nonnil p) as Hn;
    pose proof (DecimalPos.Unsigned.of_to p) as Hp;
    (assert (NilZero.string_of_uint (Pos.to_uint p)
             = NilEmpty.string_of_uint (Pos.to_uint p)) as ->
      by (unfold NilZero.string_of_uint; by destruct (Pos.to_uint p)));
    destruct (literal_uint _ Hn) as [H1 H2]; rewrite <- of_uint_value in H1, H2;
    unfold Z.of_uint in H1, H2; rewrite Hp in H1, H2; [exact H1 | exact H2].
Qed.

(** What [str] writes for an integer has no [$] and no [,]. *)
Lemma replace_class_of_Z z : Str.replace_class ["$"; ","]%char "" (Str.of_Z z) = Str.of_Z z.
Proof.
  unfold Str.of_Z. destruct z as [|p|p]; [reflexivity | |];
    cbn [Z.to_int NilZero.string_of_int]; unfold NilZero.string_of_uint;
    destruct (Pos.to_uint p) eqn:E; try reflexivity;
    try (cbn [Str.replace_class]; change (existsb _ _) with false; cbv iota);
    by rewrite replace_class_uint.
Qed.

(** An integer written by [str] and read back. *)
Lemma coerce_cell_of_Z z :
  Z.abs z < Num.limit -> coerce_cell (VStr (Str.of_Z z)) = VInt z.
Proof.
  intros Hz. unfold coerce_cell, pd.convert_cell, Num.parse. rewrite literal_of_Z.
  rewrite overflows_limit, (proj2 (Z.ltb_lt _ _) Hz).
  destruct (decide (Str.of_Z z = "")) as [He|]; [| done].
  pose proof (literal_of_Z z) as Hl. by rewrite He in Hl.
Qed.

End Integers.

(* ===================================================================== *)
(** ** The GDP-per-year column *)
(* ===================================================================== *)


Lemma of_chars_chars (t : string) : Str.of_chars (Str.chars t) = t.
Proof. induction t as [|c t IH]; simpl; [done | by rewrite IH]. Qed.



(* ===================================================================== *)
(** ** Column names *)
(* ===================================================================== *)

Section Names.
Implicit Types (raw clean df : DataFrame) (name o : string).

(** Line 103 works character by character. *)
Lemma standardize_String (a : ascii) (o : string) :
  standardize (String a o) = Str.of_chars (standardize_char a) +:+ standardize o.
Proof. destruct a as [[] [] [] [] [] [] [] []]; reflexivity. Qed.

Lemma chars_app (s t : string) : Str.chars (s +:+ t) = (Str.chars s ++ Str.chars t)%list.
Proof. induction s as [|c s IH]; simpl; [done | by rewrite IH]. Qed.

Lemma chars_of_chars (l : list ascii) : Str.chars (Str.of_chars l) = l.
Proof. induction l as [|c l IH]; simpl; [done | by rewrite IH]. Qed.

Lemma standardize_chars o :
  Str.chars (standardize o) = flat_map standardize_char (Str.chars o).
Proof.
  induction o as [|a o IH]; [done |].
  rewrite standardize_String, chars_app, chars_of_chars. simpl. by rewrite IH.
Qed.

Lemma standardize_char_check (a : ascii) :
  forallb (fun c => negb (Str.is_upper c || Ascii.eqb " " c || Ascii.eqb "(" c || Ascii.eqb ")" c))
    (standardize_char a) = true.
Proof. destruct a as [[] [] [] [] [] [] [] []]; vm_compute; reflexivity. Qed.

Lemma standardize_char_plain (a : ascii) :
  Forall (fun c => Str.is_upper c = false /\ Ascii.eqb " " c = false /\
                   Ascii.eqb "(" c = false /\ Ascii.eqb ")" c = false)
    (standardize_char a).
Proof.
  generalize (standardize_char_check a).
  induction (standardize_char a) as [|c l IH]; [constructor |].
  cbn [forallb]. intros [Hc Hl]%andb_prop. constructor; [| by apply IH].
  by destruct (Str.is_upper c), (Ascii.eqb " " c), (Ascii.eqb "(" c), (Ascii.eqb ")" c).
Qed.

Lemma standardize_plain o : plain (standardize o).
Proof.
  unfold plain, no_char. rewrite standardize_chars.
  induction (Str.chars o) as [|a l (IH1 & IH2 & IH3 & IH4)]; [by repeat constructor |].
  simpl. rewrite !Forall_app. generalize (standardize_char_plain a). intros Ha.
  repeat split; try done; eapply Forall_impl; try exact Ha; simpl; tauto.
Qed.

Lemma renamed_plain name :
  plain name -> plain (pd.renamed [("gdp_per_capita_$", "gdp_per_capita")] name).
Proof.
  intros Hp. destruct (renamed_cases name) as [[_ ->] | [_ ->]]; [| done].
  unfold plain, no_char. vm_compute. repeat constructor.
Qed.

(** The names of the cleaned table, in order. *)
Lemma columns_cleaned raw :
  columns (cleaned raw)
  = map (fun o => pd.renamed [("gdp_per_capita_$", "gdp_per_capita")] (standardize o))
      (filter (fun o => standardize o <> "hdi_for_year") (columns raw)).
Proof.
  unfold columns, cleaned, standardized. cbn [data].
  induction (data raw) as [|[o vs] l IH]; [done |].
  cbn [map fst snd]. rewrite (fmap_cons fst (o, vs) l), !filter_cons. cbn [fst].
  destruct (decide (standardize o <> "hdi_for_year")); [| exact IH].
  cbn [map]. rewrite fmap_cons. cbn [fst clean_column]. f_equal. exact IH.
Qed.

End Names.

(** C5, as the specification states it, fails: the table returned for this
    input has a column [gdp_per_capita], which is not the standardized form
    of a name of the input.  Line 118 renames the column after line 103 has
    standardized its name. *)
Lemma C5_renamed_column_counterexample :
  (exists clean, clean_dataset two_columns = Ok clean /\
                 columns clean = ["suicides_no"; "gdp_per_capita"]) /\
  map standardize (columns two_columns) = ["suicides_no"; "gdp_per_capita_$"] /\
  ~ exists o, o ∈ columns two_columns /\ "gdp_per_capita" = standardize o.
Proof.
  split; [| split].
  - eexists. split; reflexivity.
  - reflexivity.
  - intros (o & Hin & Ho). vm_compute in Hin.
    repeat (apply elem_of_cons in Hin as [-> | Hin]; [discriminate Ho |]).
    by apply elem_of_nil in Hin.
Qed.

(** C5, amended.  No name of the table [clean_dataset] returns has a capital,
    a blank or a parenthesis.  The names are those of the input, in order,
    without those that standardize to [hdi_for_year]: each is standardized
    (every character put in lower case, every blank replaced by an
    underscore, the parentheses left out) and the name [gdp_per_capita_$]
    that results is replaced by [gdp_per_capita]. *)
Theorem C5_column_names (raw clean : DataFrame) :
  clean_dataset raw = Ok clean ->
  Forall plain (columns clean) /\
  columns clean
  = map (fun o => pd.renamed [("gdp_per_capita_$", "gdp_per_capita")] (standardize o))
      (filter (fun o => standardize o <> "hdi_for_year") (columns raw)) /\
  (forall o, Str.chars (standardize o) = flat_map standardize_char (Str.chars o)).
Proof.
  intros (-> & _)%clean_dataset_Ok. rewrite columns_cleaned. split; [| split].
  - apply Forall_forall. intros n Hn. change (map ?f ?l) with (f <$> l) in Hn.
    apply list_elem_of_fmap in Hn as (o & -> & _).
    apply renamed_plain, standardize_plain.
  - done.
  - apply standardize_chars.
Qed.

Lemma C5_column_names_witness :
  Forall plain (columns (cleaned albania)) /\
  columns (cleaned albania)
  = ["country"; "year"; "sex"; "age"; "suicides_no"; "population"; "suicides/100k_pop";
     "country-year"; "gdp_for_year_$"; "gdp_per_capita"; "generation"].
Proof.
  destruct (C5_column_names albania (cleaned albania)) as (Hplain & Hnames & _);
    [reflexivity |].
  split; [exact Hplain | reflexivity].
Defined.

(** C6.  The table [clean_dataset] returns has a column [gdp_per_capita],
    none called [gdp_per_capita_$] and none called [hdi_for_year].  On a table
    without a column [hdi_for_year], line 115 raises nothing and leaves the
    table as it is. *)
Theorem C6_column_set (raw clean : DataFrame) :
  clean_dataset raw = Ok clean ->
  ("gdp_per_capita" ∈ columns clean) /\
  ("gdp_per_capita_$" ∉ columns clean) /\
  ("hdi_for_year" ∉ columns clean) /\
  (forall df, "hdi_for_year" ∉ columns df -> drop_hdi df = Ok df).
Proof.
  intros (-> & _ & Hpc & _)%clean_dataset_Ok.
  assert (forall n, n ∈ columns (cleaned raw) ->
            exists o, n = pd.renamed [("gdp_per_capita_$", "gdp_per_capita")] o /\
                      o <> "hdi_for_year") as Hnames.
  { intros n Hn. rewrite columns_cleaned in Hn. change (map ?f ?l) with (f <$> l) in Hn.
    apply list_elem_of_fmap in Hn as (o & -> & [Ho _]%list_elem_of_filter). eauto. }
  split; [| split; [| split]].
  - destruct (count_elem_of "gdp_per_capita_$" (standardized raw)) as [vs Hin]; [lia |].
    apply elem_of_standardized in Hin as (o & Hin & Ho).
    unfold columns. apply list_elem_of_fmap.
    exists (clean_column (standardize o, vs)). split; [by rewrite Ho |].
    apply elem_of_cleaned. exists o, vs. split; [done |]. by rewrite Ho.
  - intros (o & Hn & _)%Hnames.
    destruct (renamed_cases o) as [[_ Hr] | [Ho Hr]]; rewrite Hr in Hn; [done | congruence].
  - intros (o & Hn & Ho)%Hnames.
    destruct (renamed_cases o) as [[_ Hr] | [_ Hr]]; rewrite Hr in Hn; [done | congruence].
  - intros [idx l] Hno. rewrite drop_hdi_eq. cbn [index data]. do 2 f_equal.
    unfold columns in Hno. cbn [data] in Hno.
    induction l as [|[n vs] l IH]; [done |].
    rewrite fmap_cons, not_elem_of_cons in Hno. destruct Hno as [Hn Hno].
    rewrite filter_cons, decide_True by (simpl in *; congruence). by rewrite IH.
Qed.

Lemma C6_column_set_witness :
  ("gdp_per_capita" ∈ columns (cleaned albania)) /\
  ("gdp_per_capita_$" ∉ columns (cleaned albania)) /\
  ("hdi_for_year" ∉ columns (cleaned albania)) /\
  drop_hdi two_columns = Ok two_columns.
Proof.
  destruct (C6_column_set albania (cleaned albania)) as (H1 & H2 & H3 & H4);
    [reflexivity |].
  split; [exact H1 | split; [exact H2 | split; [exact H3 |]]].
  apply H4. vm_compute. intros Hin.
  repeat (apply elem_of_cons in Hin as [Hin | Hin]; [discriminate Hin |]).
  by apply elem_of_nil in Hin.
Defined.

(* ===================================================================== *)
(** ** The other columns *)
(* ===================================================================== *)

(** C8.  Apart from the columns dropped as [hdi_for_year], the columns of the
    table [clean_dataset] returns are those of the input in the same order,
    and a column whose standardized name is none of [suicides_no],
    [gdp_for_year_$], [gdp_per_capita_$] and [hdi_for_year] is there under
    its standardized name with the very cells it had. *)
Theorem C8_other_columns (raw clean : DataFrame) :
  clean_dataset raw = Ok clean ->
  Forall2 (fun c0 c => ~ touched c0.1 -> c = c0)
    (filter (fun c => c.1 <> "hdi_for_year") (data (standardized raw))) (data clean) /\
  (forall o vs, (o, vs) ∈ data raw -> ~ touched (standardize o) ->
                (standardize o, vs) ∈ data clean).
Proof.
  intros (-> & _)%clean_dataset_Ok.
  assert (forall c, ~ touched c.1 -> clean_column c = c) as Hsame.
  { intros [n vs]. unfold touched, clean_column. cbn [fst snd]. intros Hn.
    destruct (renamed_cases n) as [[-> _] | [_ ->]]; [tauto |].
    rewrite decide_False by tauto. by rewrite decide_False by tauto. }
  split.
  - unfold cleaned. cbn [data]. change (map ?f ?l) with (f <$> l).
    apply Forall2_fmap_r, Forall_Forall2_diag, Forall_forall. intros c _. exact (Hsame c).
  - intros o vs Hin Hn. apply elem_of_cleaned. exists o, vs. split; [done |].
    split; [unfold touched in Hn; tauto |]. symmetry. by apply Hsame.
Qed.

Lemma C8_other_columns_witness :
  ("suicides/100k_pop", [VFloat (Finite 671 (-2)); VFloat (Finite 281 (-2))])
    ∈ data (cleaned albania).
Proof.
  destruct (C8_other_columns albania (cleaned albania)) as [_ H]; [reflexivity |].
  apply (H "suicides/100k pop").
  - do 6 apply list_elem_of_further. apply list_elem_of_here.
  - vm_compute. intros [H1 | [H1 | [H1 | H1]]]; discriminate H1.
Defined.

(* ===================================================================== *)
(** ** The order of the steps *)
(* ===================================================================== *)

Section Steps.
Implicit Types (df : DataFrame) (s a b : step) (order : list step).

Lemma run_step_eq s df :
  to_option (run_step s df) = if step_ok s df then Some (step_effect s df) else None.
Proof.
  destruct s; cbn [run_step step_ok step_effect].
  - rewrite convert_column_eq.
    destruct (count _ df) as [|[|?]]; [done | by destruct (column_fits _ df) | done].
  - rewrite clean_gdp_for_year_eq. destruct (count _ df) as [|[|?]] eqn:Hc.
    + rewrite bool_decide_eq_true_2 by lia. rewrite on_column_absent by done.
      unfold column_prints. rewrite column_all_filter.
      unfold count in Hc. by destruct (filter _ (data df)).
    + rewrite bool_decide_eq_true_2 by lia. by destruct (column_prints _ df).
    + rewrite bool_decide_eq_false_2 by lia. by destruct (column_prints _ df).
  - rewrite convert_column_eq.
    destruct (count _ df) as [|[|?]]; [done | by destruct (column_fits _ df) | done].
  - by rewrite drop_hdi_eq.
Qed.

Lemma count_dropped name df : name <> "hdi_for_year" -> count name (dropped df) = count name df.
Proof.
  intros Hn. unfold count, dropped. cbn [data].
  induction (data df) as [|[n vs] l IH]; [done |].
  rewrite !filter_cons. cbn [fst]. destruct (decide (n <> "hdi_for_year")) as [Hh | Hh].
  - rewrite filter_cons. cbn [fst]. destruct (decide (n = name)); simpl; by rewrite IH.
  - rewrite decide_False; [exact IH |]. intros ->. by apply Hh.
Qed.

Lemma column_all_dropped (P : list cell -> bool) name df :
  name <> "hdi_for_year" -> column_all P name (dropped df) = column_all P name df.
Proof.
  intros Hn. unfold column_all, dropped. cbn [data].
  induction (data df) as [|[n vs] l IH]; [done |].
  rewrite filter_cons. cbn [fst forallb snd]. destruct (decide (n <> "hdi_for_year")) as [Hh | Hh].
  - cbn [forallb fst snd]. by rewrite IH.
  - rewrite IH. apply dec_stable in Hh. subst n.
    by rewrite bool_decide_eq_true_2 by congruence.
Qed.

(** The steps look up different names, and a step that goes through changes
    neither how often a name occurs nor whether a column can be converted. *)
Lemma step_ok_effect a b df :
  step_ok b df = true -> step_ok a (step_effect b df) = step_ok a df.
Proof.
  intros Hb. unfold column_fits, column_prints in *.
  destruct a, b; cbn [step_ok step_effect] in *; unfold column_fits, column_prints in *;
    rewrite ?count_on_column, ?count_dropped by done;
    rewrite ?column_all_dropped by done;
    rewrite ?column_all_on_column by done; try done.
  all: apply andb_true_iff in Hb as [Hc Hf]; rewrite Hc, Hf; cbn [andb].
  - apply column_all_on_column_same; [apply fits_numeric | done].
  - apply column_all_made. apply prints_currency.
  - apply column_all_on_column_same; [apply fits_numeric | done].
Qed.

Lemma on_column_comm n n' g g' df :
  n <> n' -> on_column n g (on_column n' g' df) = on_column n' g' (on_column n g df).
Proof.
  intros Hne. unfold on_column. cbn [index data]. f_equal. rewrite !map_map.
  apply map_ext. intros [m vs]. cbn [fst snd].
  destruct (decide (m = n')) as [E' | H'], (decide (m = n)) as [E | H]; cbn [fst snd];
    [congruence | | |].
  all: repeat first [rewrite decide_True by congruence | rewrite decide_False by congruence].
  all: congruence.
Qed.

Lemma on_column_dropped n g df :
  n <> "hdi_for_year" -> on_column n g (dropped df) = dropped (on_column n g df).
Proof.
  intros Hne. unfold on_column, dropped. cbn [index data]. f_equal.
  induction (data df) as [|[m vs] l IH]; [done |].
  cbn [map fst snd]. rewrite !filter_cons. cbn [fst].
  destruct (decide (m = n)) as [-> | H]; cbn [fst].
  - rewrite !decide_True by done. cbn [map fst snd]. rewrite decide_True by done.
    f_equal. exact IH.
  - destruct (decide (m <> "hdi_for_year")); [| exact IH].
    cbn [map fst snd]. rewrite decide_False by done. f_equal. exact IH.
Qed.

Lemma step_effect_comm a b df :
  step_effect a (step_effect b df) = step_effect b (step_effect a df).
Proof.
  destruct a, b; simpl; try done;
    first [ by apply on_column_comm | by symmetry; apply on_column_comm
          | by apply on_column_dropped | by symmetry; apply on_column_dropped ].
Qed.

Lemma to_option_bind {A B} (r : result A) (f : A -> result B) :
  to_option (r ≫= f) = to_option r ≫= fun x => to_option (f x).
Proof. by destruct r. Qed.

Lemma run_steps_eq order df :
  to_option (run_steps order df)
  = if forallb (fun s => step_ok s df) order
    then Some (fold_left (fun d s => step_effect s d) order df)
    else None.
Proof.
  revert df. induction order as [|s order IH]; intros df; [done |].
  cbn [run_steps forallb fold_left]. rewrite to_option_bind, run_step_eq.
  destruct (step_ok s df) eqn:Hs; [| done]. cbn [mbind option_bind andb]. rewrite IH.
  replace (forallb (fun s0 => step_ok s0 (step_effect s df)) order)
    with (forallb (fun s0 => step_ok s0 df) order); [done |].
  clear IH. induction order as [|s' order IH']; [done |]. cbn [forallb].
  by rewrite step_ok_effect, IH'.
Qed.

Lemma forallb_perm (f : step -> bool) order order' :
  order ≡ₚ order' -> forallb f order = forallb f order'.
Proof.
  induction 1 as [| s l l' _ IH | s s' l | l l' l'' _ IH1 _ IH2]; cbn [forallb].
  - done.
  - by rewrite IH.
  - by destruct (f s), (f s').
  - by rewrite IH1.
Qed.

Lemma fold_effect_perm order order' :
  order ≡ₚ order' ->
  forall df, fold_left (fun d s => step_effect s d) order df
             = fold_left (fun d s => step_effect s d) order' df.
Proof.
  induction 1 as [| s l l' _ IH | s s' l | l l' l'' _ IH1 _ IH2]; intros df;
    cbn [fold_left].
  - done.
  - apply IH.
  - by rewrite step_effect_comm.
  - by rewrite IH1.
Qed.

(** Run in any order, the steps go through on the same tables and leave
    the same table. *)
Lemma run_steps_perm order order' df :
  order ≡ₚ order' -> to_option (run_steps order df) = to_option (run_steps order' df).
Proof.
  intros Hp. rewrite !run_steps_eq, (forallb_perm _ _ _ Hp).
  by rewrite (fold_effect_perm _ _ Hp).
Qed.

Lemma clean_dataset_in_code_order (raw : DataFrame) :
  clean_dataset_in code_order raw = clean_dataset raw.
Proof.
  unfold clean_dataset_in, clean_dataset, code_order. cbn [run_steps run_step].
  unfold mbind, result_bind.
  destruct (standardize_columns _) as [d0|]; [| done].
  destruct (convert_column "suicides_no" d0) as [d1|]; [| done].
  destruct (convert_column "gdp_per_capita_$" d1) as [d2|]; [| done].
  destruct (clean_gdp_for_year d2) as [d3|]; [| done].
  by destruct (drop_hdi d3).
Qed.

End Steps.

(** C9.  With the steps 2 to 5 run in any order between the standardization
    of the names and the renaming, [clean_dataset] returns a table for the
    same inputs as with the order of the code, and the same table.  Any
    two of the steps can be exchanged: either both orders raise, or both
    leave the same table. *)
Theorem C9_steps_commute (order : list step) (raw : DataFrame) :
  order ≡ₚ code_order ->
  to_option (clean_dataset_in order raw) = to_option (clean_dataset raw) /\
  clean_dataset_in code_order raw = clean_dataset raw /\
  (forall a b df,
      to_option (df' ← run_step a df; run_step b df')
      = to_option (df' ← run_step b df; run_step a df')).
Proof.
  intros Hp. split; [| split].
  - rewrite <- clean_dataset_in_code_order. unfold clean_dataset_in.
    rewrite copy_eq, standardize_columns_eq. unfold mbind at 1 4, result_bind at 1 4.
    by rewrite !to_option_bind, (run_steps_perm _ _ _ Hp).
  - apply clean_dataset_in_code_order.
  - intros a b df. rewrite !to_option_bind, !run_step_eq.
    destruct (step_ok a df) eqn:Ha, (step_ok b df) eqn:Hb; cbn [mbind option_bind];
      rewrite ?run_step_eq, ?step_ok_effect, ?Ha, ?Hb by done; try done.
    by rewrite step_effect_comm.
Qed.

Lemma C9_steps_commute_witness :
  to_option (clean_dataset_in [Step5; Step3; Step2; Step4] albania)
  = to_option (clean_dataset albania).
Proof.
  apply (C9_steps_commute [Step5; Step3; Step2; Step4] albania).
  apply (bool_decide_unpack _). vm_compute. exact I.
Defined.

(* ===================================================================== *)
(** ** The program on objects *)
(* ===================================================================== *)

Section Objects.
Implicit Types (h : Obj.heap) (r : Obj.ref) (f raw : DataFrame).

(** An update of the newest object. *)
Lemma update_last h f (op : DataFrame -> result DataFrame) :
  Obj.update (length h) op (h ++ [f])%list
  = Some (match op f with
          | Ok f' => (Ok tt, (h ++ [f'])%list)
          | Err e => (Err e, (h ++ [f])%list)
          end).
Proof.
  unfold Obj.update. rewrite list_lookup_middle by done. destruct (op f) as [f'|e]; [| done].
  do 2 f_equal. rewrite <- (Nat.add_0_r (length h)). by rewrite insert_app_r.
Qed.

(** [Obj.clean_dataset] leaves its argument alone and works on a new
    object, which ends up holding the table [clean_dataset] computes. *)
Lemma clean_dataset_run h r raw :
  h !! r = Some raw ->
  exists f,
    Obj.clean_dataset r h
    = Some (match clean_dataset raw with
            | Ok clean => (Ok (length h), (h ++ [clean])%list)
            | Err e => (Err e, (h ++ [f])%list)
            end).
Proof.
  intros Hr. unfold Obj.clean_dataset, clean_dataset, Obj.copy, Obj.deref, Obj.alloc.
  unfold mbind, Obj.M_bind, result_bind, mret, Obj.M_ret. rewrite Hr.
  rewrite update_last. destruct (standardize_columns _) as [d0|]; [| eauto].
  rewrite update_last. destruct (convert_column "suicides_no" d0) as [d1|]; [| eauto].
  rewrite update_last. destruct (convert_column "gdp_per_capita_$" d1) as [d2|]; [| eauto].
  rewrite update_last. destruct (clean_gdp_for_year d2) as [d3|]; [| eauto].
  rewrite update_last. destruct (drop_hdi d3) as [d4|]; [| eauto].
  rewrite update_last. destruct (rename_columns d4) as [d5|]; eauto.
Qed.

End Objects.

(** C7.  A call of [clean_dataset] on a table of the heap ends (with a
    reference or an exception) and leaves every object of the heap as it
    was, the table it was given among them: the heap only gains one object.
    The reference it returns is to that new object, which holds the cleaned
    table; it is not the reference it was given. *)
Theorem C7_input_unchanged (h : Obj.heap) (r : Obj.ref) (raw : DataFrame) :
  h !! r = Some raw ->
  exists res h',
    Obj.clean_dataset r h = Some (res, h') /\
    h' !! r = Some raw /\
    (forall r0 f, h !! r0 = Some f -> h' !! r0 = Some f) /\
    (exists f, h' = (h ++ [f])%list) /\
    (forall r', res = Ok r' ->
                r' <> r /\ h !! r' = None /\
                exists clean, clean_dataset raw = Ok clean /\ h' !! r' = Some clean).
Proof.
  intros Hr. destruct (clean_dataset_run h r raw Hr) as [f Hrun].
  pose proof (lookup_lt_Some _ _ _ Hr) as Hlt.
  destruct (clean_dataset raw) as [clean|e]; eexists _, _; (split; [exact Hrun |]).
  - split; [by apply lookup_app_l_Some |].
    split; [intros r0 f0; apply lookup_app_l_Some |].
    split; [eauto |]. intros r' [= <-].
    split; [lia |]. split; [by apply lookup_ge_None_2 |].
    exists clean. split; [done |]. by apply list_lookup_middle.
  - split; [by apply lookup_app_l_Some |].
    split; [intros r0 f0; apply lookup_app_l_Some |].
    split; [eauto |]. intros r' [=].
Qed.

Lemma C7_input_unchanged_witness :
  exists res h',
    Obj.clean_dataset 1%nat [two_columns; albania] = Some (res, h') /\
    h' !! 1%nat = Some albania.
Proof.
  destruct (C7_input_unchanged [two_columns; albania] 1%nat albania) as (res & h' & H1 & H2 & _);
    [reflexivity |].
  exists res, h'. split; [exact H1 | exact H2].
Defined.

(* ===================================================================== *)
(** ** The two [load_data] *)
(* ===================================================================== *)

(** C10.  Whatever the CSV reader does, when the file [sucide_case.csv] has
    the same text at line 12 and at line 123 the two definitions of
    [load_data] do the same thing on a heap, and when the script gets past
    line 124 the names [df] and [df_raw] denote two objects that hold the
    same table, which is the table [clean_dataset] was given: [df_clean]
    holds what it computes from it. *)
Theorem C10_load_data_twice (parse_csv : string -> result DataFrame) (fs fs' : Obj.files) :
  fs "sucide_case.csv" = fs' "sucide_case.csv" ->
  (forall h, Obj.load_data parse_csv fs h = Obj.load_data' parse_csv fs' h) /\
  (forall h df df_raw df_clean h',
      Obj.main parse_csv fs fs' h = Some (Ok (df, df_raw, df_clean), h') ->
      df <> df_raw /\
      exists t clean,
        h' !! df = Some t /\ h' !! df_raw = Some t /\
        clean_dataset t = Ok clean /\ h' !! df_clean = Some clean).
Proof.
  intros Hfs. split.
  - intros h. unfold Obj.load_data, Obj.load_data', Obj.read_csv. by rewrite Hfs.
  - intros h df df_raw df_clean h'.
    unfold Obj.main, Obj.load_data, Obj.load_data', Obj.read_csv. rewrite <- Hfs.
    unfold mbind, Obj.M_bind, mret, Obj.M_ret, Obj.throw, Obj.alloc.
    destruct (fs "sucide_case.csv") as [text|]; [| done].
    destruct (parse_csv text) as [t|]; [| done].
    destruct (clean_dataset_run ((h ++ [t]) ++ [t])%list (length (h ++ [t])%list) t)
      as [f Hrun]; [by apply list_lookup_middle |].
    rewrite Hrun. destruct (clean_dataset t) as [clean|e] eqn:Hclean; [| done].
    intros [= <- <- <- <-]. split; [rewrite length_app; cbn [length]; lia |].
    exists t, clean. split; [| split; [| split]].
    + rewrite <- !app_assoc. by apply list_lookup_middle.
    + apply lookup_app_l_Some. by apply list_lookup_middle.
    + done.
    + by apply list_lookup_middle.
Qed.

Lemma C10_load_data_twice_witness :
  exists h', Obj.main (fun _ => Ok albania) (fun _ => Some "") (fun _ => Some "") []
             = Some (Ok (0%nat, 1%nat, 2%nat), h') /\
             h' !! 0%nat = Some albania /\ h' !! 1%nat = Some albania.
Proof.
  assert (Obj.main (fun _ => Ok albania) (fun _ => Some "") (fun _ => Some "") []
          = Some (Ok (0%nat, 1%nat, 2%nat), [albania; albania; cleaned albania])) as Hmain
    by (vm_compute; reflexivity).
  destruct (C10_load_data_twice (fun _ => Ok albania) (fun _ => Some "") (fun _ => Some "")
              eq_refl) as [_ H].
  destruct (H _ _ _ _ _ Hmain) as (_ & t & clean & H0 & H1 & _).
  injection H0 as <-. eauto.
Defined.

(* ===================================================================== *)
(** ** More on the names *)
(* ===================================================================== *)

Section MoreNames.
Implicit Types (raw clean df : DataFrame) (name o : string).

Lemma standardize_char_fixed (c : ascii) :
  Str.is_upper c = false -> Ascii.eqb " " c = false ->
  Ascii.eqb "(" c = false -> Ascii.eqb ")" c = false ->
  standardize_char c = [c].
Proof.
  intros Hu Hs Hl Hr. unfold standardize_char, Str.lower_char.
  rewrite (Ascii.eqb_sym c "("), (Ascii.eqb_sym c ")"), (Ascii.eqb_sym c " ").
  by rewrite Hu, Hs, Hl, Hr.
Qed.

(** A name without capital, blank or parenthesis is left as it is. *)
Lemma standardize_fixed name : plain name -> standardize name = name.
Proof.
  intros (Hu & Hs & Hl & Hr). unfold no_char in *.
  assert (Str.chars (standardize name) = Str.chars name) as Hchars.
  { rewrite standardize_chars.
    induction (Str.chars name) as [|c l IH]; [done |].
    inversion_clear Hu. inversion_clear Hs. inversion_clear Hl. inversion_clear Hr.
    cbn [flat_map]. rewrite standardize_char_fixed by done. cbn [app]. f_equal. by apply IH. }
  rewrite <- (of_chars_chars (standardize name)), Hchars. apply of_chars_chars.
Qed.

End MoreNames.

(** X1.  Line 103 is idempotent: a name that has been standardized is not
    changed by standardizing it again. *)
Theorem X1_standardize_idempotent (o : string) :
  standardize (standardize o) = standardize o.
Proof. apply standardize_fixed, standardize_plain. Qed.

(* ===================================================================== *)
(** ** More on [pd.to_numeric] *)
(* ===================================================================== *)

Section MoreNumeric.
Implicit Types (vs : list cell) (c : cell).

Lemma coerce_cell_fixed c : numeric_or_missing c -> coerce_cell c = c.
Proof.
  destruct c as [z| | |]; try done. intros _. unfold coerce_cell, pd.convert_cell.
  by destruct (Num.overflows z).
Qed.

Lemma map_coerce_cell_fixed vs : Forall numeric_or_missing vs -> map coerce_cell vs = vs.
Proof.
  induction 1 as [|c l Hc _ IH]; [done |]. cbn [map]. by rewrite coerce_cell_fixed, IH.
Qed.

Lemma existsb_false {A} (f : A -> bool) (l : list A) :
  Forall (fun x => f x = false) l -> existsb f l = false.
Proof. induction 1 as [|x l Hx _ IH]; [done |]. cbn [existsb]. by rewrite Hx, IH. Qed.

Lemma existsb_false_Forall {A} (f : A -> bool) (l : list A) :
  existsb f l = false -> Forall (fun x => f x = false) l.
Proof.
  induction l as [|x l IH]; [constructor |]. cbn [existsb].
  intros [Hx Hl]%orb_false_elim. constructor; auto.
Qed.

Lemma to_float_floating c : pd.floating c = true -> pd.to_float c = c.
Proof. by destruct c. Qed.

Lemma map_to_float_floating vs :
  Forall (fun c => pd.floating c = true) vs -> map pd.to_float vs = vs.
Proof.
  induction 1 as [|c l Hc _ IH]; [done |]. cbn [map]. by rewrite to_float_floating, IH.
Qed.

Lemma int64_cases z :
  pd.int64 z = true <-> - 2 ^ 63 <= z < 2 ^ 63.
Proof. unfold pd.int64. rewrite andb_true_iff, Z.leb_le, Z.ltb_lt. done. Qed.

Lemma uint64_cases z :
  pd.uint64 z = true <-> 0 <= z < 2 ^ 64.
Proof. unfold pd.uint64. rewrite andb_true_iff, Z.leb_le, Z.ltb_lt. done. Qed.

(** A column of one numeric dtype is left as it is. *)
Lemma unify_fixed vs : one_dtype vs -> pd.unify vs = vs.
Proof.
  unfold pd.unify, pd.needs_float. intros [Hint | [Hint | Hfl]].
  - rewrite (existsb_false pd.floating), (existsb_false pd.beyond_64_bits),
      (existsb_false pd.beyond_int64), andb_false_r; [done | ..];
      (eapply Forall_impl; [exact Hint |]); intros [z| | |]; try done;
      cbn [is_int64 pd.beyond_int64 pd.beyond_64_bits]; intros Hz; [| by rewrite Hz].
    apply int64_cases in Hz. apply Z.leb_gt. lia.
  - rewrite (existsb_false pd.floating), (existsb_false pd.beyond_64_bits),
      (existsb_false pd.negative); [done | ..];
      (eapply Forall_impl; [exact Hint |]); intros [z| | |]; try done;
      cbn [is_uint64 pd.negative pd.beyond_64_bits]; intros Hz;
      [| by rewrite Hz, orb_true_r].
    apply uint64_cases in Hz. apply Z.ltb_ge. lia.
  - destruct (_ || _); [| done]. by apply map_to_float_floating.
Qed.

(** The cells [pd.unify] returns are of one dtype. *)
Lemma unify_one_dtype vs : Forall numeric_or_missing vs -> one_dtype (pd.unify vs).
Proof.
  intros Hn. unfold pd.unify, pd.needs_float.
  destruct (existsb pd.floating vs) eqn:Hf; cbn [orb].
  { right. right. clear Hf. induction Hn as [|c l Hc _ IH]; [constructor |].
    cbn [map]. constructor; [by destruct c | exact IH]. }
  destruct (existsb pd.beyond_64_bits vs) eqn:Hb; cbn [orb].
  { right. right. clear Hf Hb. induction Hn as [|c l Hc _ IH]; [constructor |].
    cbn [map]. constructor; [by destruct c | exact IH]. }
  apply existsb_false_Forall in Hf, Hb.
  destruct (existsb pd.negative vs) eqn:Hneg; cbn [andb].
  - destruct (existsb pd.beyond_int64 vs) eqn:Hbig.
    { right. right. clear Hf Hb Hneg Hbig. induction Hn as [|c l Hc _ IH]; [constructor |].
      cbn [map]. constructor; [by destruct c | exact IH]. }
    left. apply existsb_false_Forall in Hbig. clear Hneg.
    induction Hn as [|c l Hc _ IH]; [constructor |].
    inversion_clear Hf. inversion_clear Hb. inversion_clear Hbig.
    constructor; [| by apply IH]. destruct c as [z| | |]; try done.
    cbn [is_int64 pd.beyond_64_bits pd.beyond_int64] in *.
    destruct (pd.int64 z) eqn:E; [done |]. cbn [orb] in *.
    destruct (pd.uint64 z) eqn:E'; [| done]. apply uint64_cases in E'.
    assert (- 2 ^ 63 <= z < 2 ^ 63) as Hz%int64_cases by (apply Z.leb_gt in H3; lia).
    congruence.
  - right. left. apply existsb_false_Forall in Hneg.
    induction Hn as [|c l Hc _ IH]; [constructor |].
    inversion_clear Hf. inversion_clear Hb. inversion_clear Hneg.
    constructor; [| by apply IH]. destruct c as [z| | |]; try done.
    cbn [is_uint64 pd.beyond_64_bits pd.negative] in *.
    destruct (pd.uint64 z) eqn:E; [done |]. rewrite orb_false_r in *.
    destruct (pd.int64 z) eqn:E'; [| done]. apply int64_cases in E'.
    assert (0 <= z < 2 ^ 64) as Hz%uint64_cases by (apply Z.ltb_ge in H3; lia).
    congruence.
Qed.

Lemma one_dtype_numeric vs : one_dtype vs -> Forall numeric_or_missing vs.
Proof.
  intros [H | [H | H]]; (eapply Forall_impl; [exact H |]); intros c; by destruct c.
Qed.

Lemma one_dtype_is_int vs :
  one_dtype vs ->
  Forall (fun c => is_int c = true) vs \/ Forall (fun c => pd.floating c = true) vs.
Proof.
  intros [H | [H | H]]; [left | left | by right];
    (eapply Forall_impl; [exact H |]); intros c; by destruct c.
Qed.

Lemma one_dtype_fits vs : one_dtype vs -> fits vs = true.
Proof.
  intros H. apply machine_int_fits, forallb_forall. intros c Hc%list_elem_of_In.
  destruct H as [H | [H | H]]; rewrite Forall_forall in H; specialize (H c Hc);
    destruct c as [z| | |]; try done; cbn [machine_int is_int64 is_uint64] in *;
    rewrite H; [done | apply orb_true_r].
Qed.

Lemma numeric_one_dtype vs : one_dtype (numeric vs).
Proof.
  apply unify_one_dtype. apply Forall_forall. intros c Hc.
  change (map ?f ?l) with (f <$> l) in Hc. apply list_elem_of_fmap in Hc as (c0 & -> & _).
  apply coerce_cell_numeric.
Qed.

Lemma numeric_dtype vs :
  Forall (fun c => is_int c = true) (numeric vs) \/
  Forall (fun c => pd.floating c = true) (numeric vs).
Proof. apply one_dtype_is_int, numeric_one_dtype. Qed.

Lemma numeric_fixed vs : one_dtype vs -> numeric vs = vs.
Proof.
  intros H. unfold numeric.
  rewrite map_coerce_cell_fixed by (by apply one_dtype_numeric). by apply unify_fixed.
Qed.

Lemma numeric_idem vs : numeric (numeric vs) = numeric vs.
Proof. apply numeric_fixed, numeric_one_dtype. Qed.

Lemma numeric_length vs : length (numeric vs) = length vs.
Proof. symmetry. apply (Forall2_length _ _ _ (numeric_cells vs)). Qed.

End MoreNumeric.

(** X2.  What [pd.to_numeric(..., errors='coerce')] returns for a Series has
    the row labels of the Series, as many cells, and one numeric dtype: its
    cells are all integers, or all floats and NaN. *)
Theorem X2_to_numeric_dtype (s s' : Series) :
  pd.to_numeric (OneColumn s) coerce = Ok s' ->
  s_index s' = s_index s /\
  length (s_values s') = length (s_values s) /\
  (Forall (fun c => is_int c = true) (s_values s') \/
   Forall (fun c => pd.floating c = true) (s_values s')).
Proof.
  rewrite to_numeric_coerce. destruct (fits _); [| done]. intros [= <-].
  cbn [s_index s_values].
  split; [done |]. split; [apply numeric_length | apply numeric_dtype].
Qed.

Lemma X2_to_numeric_dtype_witness :
  Forall (fun c => pd.floating c = true) [VNaN; VFloat (Finite 7 0)].
Proof.
  destruct (X2_to_numeric_dtype
              {| s_index := [0; 1]; s_values := [VStr "abc"; VStr "7"] |}
              {| s_index := [0; 1]; s_values := [VNaN; VFloat (Finite 7 0)] |})
    as (_ & _ & [H | H]); [reflexivity | | exact H].
  inversion_clear H. discriminate.
Defined.

(** X3.  A Series that already has a numeric dtype (its cells are all
    [int64] integers, or all [uint64] integers, or all floats and NaN) is
    returned by [pd.to_numeric(..., errors='coerce')] as it is. *)
Theorem X3_to_numeric_keeps_numbers (s : Series) :
  one_dtype (s_values s) ->
  pd.to_numeric (OneColumn s) coerce = Ok s.
Proof.
  intros H. rewrite to_numeric_coerce, one_dtype_fits, numeric_fixed by done.
  by destruct s.
Qed.

Lemma X3_to_numeric_keeps_numbers_witness :
  pd.to_numeric (OneColumn {| s_index := [0; 1]; s_values := [VInt 21; VInt 1] |}) coerce
  = Ok {| s_index := [0; 1]; s_values := [VInt 21; VInt 1] |}.
Proof.
  apply (X3_to_numeric_keeps_numbers {| s_index := [0; 1]; s_values := [VInt 21; VInt 1] |}).
  left. repeat constructor.
Defined.

(** X4.  The coercion is idempotent: applied to its own result it returns
    that result. *)
Theorem X4_to_numeric_idempotent (s s' : Series) :
  pd.to_numeric (OneColumn s) coerce = Ok s' ->
  pd.to_numeric (OneColumn s') coerce = Ok s'.
Proof.
  rewrite !to_numeric_coerce. destruct (fits (s_values s)) eqn:Hf; [| done].
  intros [= <-]. cbn [s_index s_values]. by rewrite fits_numeric, numeric_idem.
Qed.

Lemma X4_to_numeric_idempotent_witness :
  pd.to_numeric (OneColumn {| s_index := [0; 1]; s_values := [VNaN; VFloat (Finite 7 0)] |})
    coerce
  = Ok {| s_index := [0; 1]; s_values := [VNaN; VFloat (Finite 7 0)] |}.
Proof.
  apply (X4_to_numeric_idempotent
           {| s_index := [0; 1]; s_values := [VStr "abc"; VStr "7"] |}).
  reflexivity.
Defined.

(* ===================================================================== *)
(** ** Columns of integers *)
(* ===================================================================== *)

Section IntegerColumns.


End IntegerColumns.



(** X6.  A [$] or a [,] anywhere in a cell of the GDP-per-year column does
    not change the number read from it. *)
Theorem X6_separators_ignored (s t : string) (c : ascii) :
  c = "$"%char \/ c = ","%char ->
  strip_currency (VStr (s +:+ String c t)) = strip_currency (VStr (s +:+ t)) /\
  coerce_cell (strip_currency (VStr (s +:+ String c t)))
  = coerce_cell (strip_currency (VStr (s +:+ t))).
Proof.
  intros Hc.
  assert (strip_currency (VStr (s +:+ String c t)) = strip_currency (VStr (s +:+ t))) as H;
    [| by rewrite H].
  unfold strip_currency. cbn [str_of_cell]. f_equal.
  induction s as [|a s IH].
  - cbn [String.append Str.replace_class existsb]. by destruct Hc as [-> | ->].
  - change (String a s +:+ ?x) with (String a (s +:+ x)).
    cbn [Str.replace_class]. by rewrite IH.
Qed.

Lemma X6_separators_ignored_witness :
  coerce_cell (strip_currency (VStr "2,156")) = coerce_cell (strip_currency (VStr "2156")).
Proof. apply (X6_separators_ignored "2" "156" ","). by right. Defined.

(* ===================================================================== *)
(** ** More on [clean_dataset] *)
(* ===================================================================== *)

Section MoreCleaning.
Implicit Types (raw clean df : DataFrame) (name o : string) (vs : list cell).

Lemma columns_standardized raw : columns (standardized raw) = map standardize (columns raw).
Proof.
  unfold columns, standardized. cbn [data].
  induction (data raw) as [|[o vs] l IH]; [done |]. cbn [map]. rewrite !fmap_cons.
  cbn [fst map]. f_equal. exact IH.
Qed.

Lemma count_standardized name raw :
  count name (standardized raw)
  = length (filter (fun n => n = name) (map standardize (columns raw))).
Proof. by rewrite count_columns, columns_standardized. Qed.

(** Dropping the columns that standardize to [hdi_for_year] does not change
    how often another name occurs. *)
Lemma count_without_hdi name (l : list string) :
  name <> "hdi_for_year" ->
  length (filter (fun n => n = name) (map standardize l))
  = length (filter (fun n => n = name)
              (map standardize (filter (fun o => standardize o <> "hdi_for_year") l))).
Proof.
  intros Hn. induction l as [|o l IH]; [done |].
  cbn [map]. rewrite !filter_cons.
  destruct (decide (standardize o <> "hdi_for_year")) as [Ho | Ho].
  - cbn [map]. rewrite filter_cons. destruct (decide (standardize o = name)); simpl; by rewrite IH.
  - rewrite decide_False; [exact IH |]. intros He. apply Ho. congruence.
Qed.

(** The names of a cleaned table are standardized already. *)
Lemma columns_cleaned_fixed raw :
  map standardize (columns (cleaned raw)) = columns (cleaned raw).
Proof.
  rewrite <- (map_id (columns (cleaned raw))) at 2. apply map_ext_in.
  intros n Hn%list_elem_of_In. rewrite columns_cleaned in Hn.
  change (map ?f ?l) with (f <$> l) in Hn. apply list_elem_of_fmap in Hn as (o & -> & _).
  apply standardize_fixed, renamed_plain, standardize_plain.
Qed.

(** How often the names the cleaning looks up occur in a cleaned table. *)
Lemma count_cleaned raw :
  count "suicides_no" (standardized (cleaned raw)) = count "suicides_no" (standardized raw) /\
  count "gdp_per_capita_$" (standardized (cleaned raw)) = 0%nat.
Proof.
  rewrite !count_standardized, columns_cleaned_fixed, columns_cleaned.
  rewrite (count_without_hdi "suicides_no") by done.
  induction (filter _ (columns raw)) as [|o l [IH1 IH2]]; [done |].
  cbn [map]. rewrite !filter_cons.
  destruct (renamed_cases (standardize o)) as [[Ho Hr] | [Ho Hr]]; rewrite Hr.
  - rewrite Ho. rewrite !decide_False by done. split; [exact IH1 | exact IH2].
  - rewrite (decide_False (P := standardize o = "gdp_per_capita_$")) by done.
    split; [| exact IH2].
    destruct (decide (standardize o = "suicides_no")); cbn [length]; by rewrite IH1.
Qed.

(** The [suicides_no] columns of a cleaned table can be converted again. *)
Lemma column_fits_cleaned raw :
  column_fits "suicides_no" (standardized raw) = true ->
  column_fits "suicides_no" (standardized (cleaned raw)) = true.
Proof.
  rewrite !column_fits_spec. intros Hraw vs (o & Hin & Ho)%elem_of_standardized.
  apply elem_of_cleaned in Hin as (o0 & vs0 & Hin & _ & Heq).
  unfold clean_column in Heq. cbn [fst snd] in Heq.
  destruct (renamed_cases (standardize o0)) as [[Ho0 Hr] | [Ho0 Hr]]; rewrite Hr in Heq.
  { injection Heq as -> _. discriminate Ho. }
  injection Heq as -> ->.
  rewrite (standardize_fixed (standardize o0)) in Ho by apply standardize_plain.
  rewrite Ho, decide_True by (by left). apply fits_numeric, Hraw.
  apply elem_of_standardized. eauto.
Qed.

End MoreCleaning.

(** X7.  In the table [clean_dataset] returns, a column called
    [suicides_no] or [gdp_for_year_$] holds numbers and NaN only, and has
    one dtype: all integers, or all floats and NaN. *)
Theorem X7_converted_columns_dtype (raw clean : DataFrame) (name : string) (vs : list cell) :
  clean_dataset raw = Ok clean ->
  name = "suicides_no" \/ name = "gdp_for_year_$" ->
  (name, vs) ∈ data clean ->
  Forall numeric_or_missing vs /\
  (Forall (fun c => is_int c = true) vs \/ Forall (fun c => pd.floating c = true) vs).
Proof.
  intros (-> & _)%clean_dataset_Ok Hname (o & vs0 & _ & _ & Heq)%elem_of_cleaned.
  unfold clean_column in Heq. cbn [fst snd] in Heq.
  destruct (renamed_cases (standardize o)) as [[Ho Hr] | [Ho Hr]]; rewrite Hr in Heq.
  { destruct Hname as [-> | ->]; discriminate Heq. }
  injection Heq as Hn ->. rewrite <- Hn.
  destruct Hname as [-> | ->].
  - rewrite decide_True by (by left). split; [apply numeric_numeric | apply numeric_dtype].
  - rewrite decide_False by (intros [? | ?]; done). rewrite decide_True by done.
    split; [apply numeric_numeric | apply numeric_dtype].
Qed.

Lemma X7_converted_columns_dtype_witness :
  Forall numeric_or_missing [VInt 2156624900; VInt 2156624900].
Proof.
  apply (X7_converted_columns_dtype albania (cleaned albania) "gdp_for_year_$").
  - vm_compute. reflexivity.
  - by right.
  - vm_compute. do 8 apply list_elem_of_further. apply list_elem_of_here.
Defined.

(** X8.  [clean_dataset] cannot be applied to its own result: line 118 has
    renamed the column line 107 looks up, so the second call raises
    [KeyError] for [gdp_per_capita_$]. *)
Theorem X8_second_cleaning_raises (raw clean : DataFrame) :
  clean_dataset raw = Ok clean ->
  clean_dataset clean = Err (KeyError "gdp_per_capita_$").
Proof.
  intros Hclean. pose proof (clean_dataset_fits _ _ Hclean) as [Hf _].
  apply clean_dataset_Ok in Hclean as (-> & Hs & _). rewrite clean_dataset_eq.
  destruct (count_cleaned raw) as [-> ->]. by rewrite Hs, column_fits_cleaned.
Qed.

Lemma X8_second_cleaning_raises_witness :
  clean_dataset (cleaned albania) = Err (KeyError "gdp_per_capita_$").
Proof. apply (X8_second_cleaning_raises albania). vm_compute. reflexivity. Defined.

(** X9.  When [clean_dataset] raises, the exception tells what is wrong
    with the table.  With the names once standardized: [KeyError] for
    [suicides_no] when no column is called so; [TypeError] when several are;
    [OverflowError] when one is and it holds an integer too large for a
    float.  Otherwise [KeyError] for [gdp_per_capita_$] when no column is
    called so; [TypeError] when several are; [OverflowError] when one is and
    it holds such an integer.  Otherwise [ValueError] when a column called
    [gdp_for_year_$] holds an integer of more than 4300 digits, which [str]
    refuses, and else [AttributeError], several columns being called
    [gdp_for_year_$].  It raises nothing else. *)
Theorem X9_exceptions (raw : DataFrame) (e : exn) :
  clean_dataset raw = Err e ->
  (e = KeyError "suicides_no" /\ count "suicides_no" (standardized raw) = 0%nat) \/
  (e = TypeError /\ (2 <= count "suicides_no" (standardized raw))%nat) \/
  count "suicides_no" (standardized raw) = 1%nat /\
  ((e = OverflowError /\ column_fits "suicides_no" (standardized raw) = false) \/
   column_fits "suicides_no" (standardized raw) = true /\
   ((e = KeyError "gdp_per_capita_$" /\
     count "gdp_per_capita_$" (standardized raw) = 0%nat) \/
    (e = TypeError /\ (2 <= count "gdp_per_capita_$" (standardized raw))%nat) \/
    count "gdp_per_capita_$" (standardized raw) = 1%nat /\
    ((e = OverflowError /\ column_fits "gdp_per_capita_$" (standardized raw) = false) \/
     column_fits "gdp_per_capita_$" (standardized raw) = true /\
     ((e = ValueError /\
       (1 <= count "gdp_for_year_$" (standardized raw))%nat /\
       column_prints "gdp_for_year_$" (standardized raw) = false) \/
      (e = AttributeError /\
       (2 <= count "gdp_for_year_$" (standardized raw))%nat /\
       column_prints "gdp_for_year_$" (standardized raw) = true))))).
Proof.
  rewrite clean_dataset_eq.
  destruct (count "suicides_no" _) as [|[|?]];
    [intros [= <-]; by left | | intros [= <-]; right; left; split; [done | lia]].
  destruct (column_fits "suicides_no" _);
    [| intros [= <-]; right; right; split; [done |]; by left].
  destruct (count "gdp_per_capita_$" _) as [|[|?]].
  - intros [= <-]. right. right. split; [done |]. right. split; [done |]. by left.
  - destruct (column_fits "gdp_per_capita_$" _).
    + intros He. right. right. split; [done |]. right. split; [done |].
      right. right. split; [done |]. right. split; [done |]. revert He.
      destruct (count "gdp_for_year_$" _) as [|[|?]]; [done | |];
        destruct (column_prints _ _); try done; intros [= <-];
        [left | right | left]; repeat split; lia.
    + intros [= <-]. right. right. split; [done |]. right. split; [done |].
      right. right. split; [done |]. by left.
  - intros [= <-]. right. right. split; [done |]. right. split; [done |].
    right. left. split; [done | lia].
Qed.

Lemma X9_exceptions_witness :
  le 2 (count "suicides_no"
          (standardized {| index := [0];
                           data := [("suicides_no", [VInt 1]); ("Suicides_No", [VInt 2]);
                                    ("gdp_per_capita ($)", [VInt 796])] |})).
Proof.
  destruct (X9_exceptions
              {| index := [0];
                 data := [("suicides_no", [VInt 1]); ("Suicides_No", [VInt 2]);
                          ("gdp_per_capita ($)", [VInt 796])] |} TypeError)
    as [[H _] | [[_ H] | [H _]]];
    [reflexivity | discriminate H | exact H |].
  vm_compute in H. discriminate H.
Defined.

(** X10.  A table with the columns [column_info] documents, in that order,
    and whatever columns standardizing to [hdi_for_year] stand among them, is
    cleaned without an exception, and the cleaned table has these eleven
    names, unless its column [suicides_no] or [gdp_per_capita ($)] holds an
    integer too large for a float, and then [OverflowError] is raised, or its
    column [gdp_for_year ($)] holds an integer [str] refuses, and then
    [ValueError] is. *)
Theorem X10_documented_columns (raw : DataFrame) :
  filter (fun o => standardize o <> "hdi_for_year") (columns raw) = column_info.*1 ->
  clean_dataset raw
  = (if column_fits "suicides_no" (standardized raw) &&
        column_fits "gdp_per_capita_$" (standardized raw)
     then if column_prints "gdp_for_year_$" (standardized raw)
          then Ok (cleaned raw) else Err ValueError
     else Err OverflowError) /\
  columns (cleaned raw)
  = ["country"; "year"; "sex"; "age"; "suicides_no"; "population"; "suicides/100k_pop";
     "country-year"; "gdp_for_year_$"; "gdp_per_capita"; "generation"].
Proof.
  intros Hcols. split.
  - rewrite clean_dataset_eq, !count_standardized.
    rewrite (count_without_hdi "suicides_no"), (count_without_hdi "gdp_per_capita_$"),
      (count_without_hdi "gdp_for_year_$") by done.
    rewrite Hcols.
    assert (forall name k,
               length (filter (fun n => n = name) (map standardize column_info.*1)) = k ->
               length (filter (fun n => n = name) (map standardize column_info.*1)) = k)
      as Hk by done.
    rewrite (Hk "suicides_no" 1%nat), (Hk "gdp_per_capita_$" 1%nat),
      (Hk "gdp_for_year_$" 1%nat) by (vm_compute; reflexivity).
    by destruct (column_fits "suicides_no" _), (column_fits _ _).
  - by rewrite columns_cleaned, Hcols.
Qed.

Lemma X10_documented_columns_witness :
  clean_dataset albania = Ok (cleaned albania).
Proof.
  destruct (X10_documented_columns albania) as [H _]; [reflexivity |].
  rewrite H.
  assert (column_fits "suicides_no" (standardized albania) &&
          column_fits "gdp_per_capita_$" (standardized albania) = true) as ->
    by (vm_compute; reflexivity).
  assert (column_prints "gdp_for_year_$" (standardized albania) = true) as ->
    by (vm_compute; reflexivity).
  reflexivity.
Defined.

(* ===================================================================== *)
(** ** The session state *)
(* ===================================================================== *)

Section Session.
Implicit Types (s : gmap string bool) (e : bool * bool) (events : list (bool * bool)).

Lemma lookup_setdefault (k k' : string) (v : bool) s :
  St.setdefault k v s !! k'
  = if decide (k = k') then Some (default v (s !! k)) else s !! k'.
Proof.
  unfold St.setdefault. destruct (decide (k = k')) as [<- | Hne].
  - destruct (s !! k) as [b|] eqn:Hk; [done |]. by rewrite lookup_insert_eq.
  - destruct (s !! k); [done |]. by rewrite lookup_insert_ne.
Qed.

Lemma initialize_flags s :
  St.initialize s !! "show_dataset" = Some (default false (s !! "show_dataset")) /\
  St.initialize s !! "show_columns" = Some (default false (s !! "show_columns")).
Proof.
  unfold St.initialize. rewrite !lookup_setdefault.
  rewrite (decide_False (P := "show_columns" = "show_dataset")) by done.
  rewrite (decide_True (P := "show_dataset" = "show_dataset")) by done.
  rewrite (decide_True (P := "show_columns" = "show_columns")) by done.
  by rewrite (decide_False (P := "show_dataset" = "show_columns")) by done.
Qed.

(** After a run both keys are set: each flag is on when its button was
    clicked or it was on before. *)
Lemma rerun_flags e s :
  (St.rerun e s).2 !! "show_dataset" = Some (e.1 || default false (s !! "show_dataset")) /\
  (St.rerun e s).2 !! "show_columns" = Some (e.2 || default false (s !! "show_columns")).
Proof.
  destruct (initialize_flags s) as [Hd Hc].
  unfold St.rerun, St.sidebar. cbn [fst snd]. destruct e as [[] []]; cbn [fst snd orb];
    rewrite ?lookup_insert_eq, ?lookup_insert_ne by done;
    rewrite ?lookup_insert_eq, ?lookup_insert_ne by done; done.
Qed.

Lemma rerun_shown e s :
  (St.rerun e s).1
  = Ok (e.1 || default false (s !! "show_dataset"),
        e.2 || default false (s !! "show_columns")).
Proof.
  destruct (rerun_flags e s) as [Hd Hc].
  unfold St.rerun in *. cbn [fst snd] in *. unfold St.shown, St.getattr. by rewrite Hd, Hc.
Qed.

Lemma session_after_flags events s :
  default false (St.session_after events s !! "show_dataset")
  = existsb fst events || default false (s !! "show_dataset") /\
  default false (St.session_after events s !! "show_columns")
  = existsb snd events || default false (s !! "show_columns").
Proof.
  revert s. induction events as [|e events IH]; intros s; [done |].
  unfold St.session_after in *. cbn [foldl existsb].
  destruct (IH (St.rerun e s).2) as [-> ->]. destruct (rerun_flags e s) as [-> ->].
  cbn [default]. destruct e as [d c]. cbn [fst snd].
  split; [by destruct (existsb fst events), d | by destruct (existsb snd events), c].
Qed.

End Session.

(** X11.  In a browser session that starts with an empty session state, a
    run of the script renders the dataset exactly when the button "Show
    Dataset" is clicked in this run or was in an earlier one, and likewise
    for the column information: a section that has been switched on is never
    hidden again.  Reading the two flags never raises. *)
Theorem X11_sections_stay_on (events : list (bool * bool)) (e : bool * bool) :
  (St.rerun e (St.session_after events ∅)).1
  = Ok (existsb fst (events ++ [e]), existsb snd (events ++ [e])).
Proof.
  rewrite rerun_shown. destruct (session_after_flags events ∅) as [-> ->].
  rewrite !existsb_app, lookup_empty. cbn [existsb default].
  destruct e as [d c]. cbn [fst snd].
  by destruct (existsb fst events), (existsb snd events), d, c.
Qed.

(* ===================================================================== *)
(** ** The previews *)
(* ===================================================================== *)

(** X12.  [df.head(n)] keeps the columns and their names and the first [n]
    rows: as many rows as the table has when it has fewer than [n], in which
    case the preview is the whole table. *)
Theorem X12_head_rows (n : nat) (df : DataFrame) :
  wf df ->
  wf (df_head n df) /\
  nrows (df_head n df) = Nat.min n (nrows df) /\
  columns (df_head n df) = columns df /\
  (nrows df <= n -> df_head n df = df)%nat.
Proof.
  unfold wf, nrows, columns, df_head. destruct df as [idx cols]. cbn [index data].
  intros Hwf. split; [| split; [| split]].
  - apply Forall_forall. intros c Hc. change (map ?f ?l) with (f <$> l) in Hc.
    apply list_elem_of_fmap in Hc as (c0 & -> & Hc0). cbn [snd].
    rewrite Forall_forall in Hwf. by rewrite !length_take, (Hwf c0 Hc0).
  - apply length_take.
  - induction cols as [|[o vs] l IH]; [done |]. cbn [map]. rewrite !fmap_cons. cbn [fst].
    f_equal. apply IH. by inversion_clear Hwf.
  - intros Hn. f_equal; [by apply take_ge |].
    rewrite <- (map_id cols) at 2. apply map_ext_in. intros [o vs] Hin%list_elem_of_In.
    rewrite Forall_forall in Hwf. specialize (Hwf _ Hin). cbn [fst snd] in *.
    f_equal. apply take_ge. lia.
Qed.

Lemma X12_head_rows_witness :
  nrows (df_head 10 albania) = 2%nat /\ df_head 10 albania = albania /\
  nrows (df_head 1 albania) = 1%nat.
Proof.
  assert (wf albania) as Hwf by (unfold wf; repeat constructor).
  destruct (X12_head_rows 10 albania Hwf) as (_ & H1 & _ & H2).
  destruct (X12_head_rows 1 albania Hwf) as (_ & H3 & _).
  split; [exact H1 | split; [apply H2; vm_compute; lia | exact H3]].
Defined.

(** X13.  The two previews of the dashboard show the same rows: the first
    rows of the cleaned table bear the labels of the first rows of the raw
    table, and each cell of the cleaned preview is made from the cell of the
    same row of a column of the raw preview. *)
Theorem X13_previews_aligned (n : nat) (raw clean : DataFrame) :
  clean_dataset raw = Ok clean ->
  index (df_head n clean) = index (df_head n raw) /\
  Forall (fun c => exists c0, c0 ∈ data (df_head n raw) /\ Forall2 from_cell c0.2 c.2)
    (data (df_head n clean)).
Proof.
  intros (-> & _)%clean_dataset_Ok. split; [done |].
  apply Forall_forall. intros c Hc. unfold df_head in *. cbn [data] in *.
  change (map ?f ?l) with (f <$> l) in Hc. apply list_elem_of_fmap in Hc as (c1 & -> & Hc1).
  destruct (cleaned_cells raw c1 Hc1) as (c0 & Hc0 & Hcells).
  exists (c0.1, take n c0.2). split.
  - change (map ?f ?l) with (f <$> l). apply list_elem_of_fmap. by exists c0.
  - cbn [snd]. by apply Forall2_take.
Qed.

Lemma X13_previews_aligned_witness :
  index (df_head 1 (cleaned albania)) = index (df_head 1 albania).
Proof.
  apply (X13_previews_aligned 1 albania (cleaned albania)). vm_compute. reflexivity.
Defined.

(* ===================================================================== *)
(** ** Calling [clean_dataset] again *)
(* ===================================================================== *)

#[local] Existing Instances Obj.M_ret Obj.M_bind.

(** X14.  Two calls of [clean_dataset] on the same table that both return
    give two different objects holding the same cleaned table, and leave the
    table they were given as it was: the second call changes neither the
    input nor the result of the first. *)
Theorem X14_two_calls (h : Obj.heap) (r : Obj.ref) (raw : DataFrame)
    (r1 r2 : Obj.ref) (h' : Obj.heap) :
  h !! r = Some raw ->
  (r1 ← Obj.clean_dataset r; r2 ← Obj.clean_dataset r; mret (r1, r2)) h
  = Some (Ok (r1, r2), h') ->
  r1 <> r2 /\
  exists clean,
    clean_dataset raw = Ok clean /\
    h' !! r1 = Some clean /\ h' !! r2 = Some clean /\ h' !! r = Some raw.
Proof.
  intros Hr. unfold mbind, Obj.M_bind, mret, Obj.M_ret.
  destruct (clean_dataset_run h r raw Hr) as [f1 ->].
  destruct (clean_dataset raw) as [clean|e] eqn:Hclean; [| done].
  destruct (clean_dataset_run (h ++ [clean]) r raw) as [f2 ->];
    [by apply lookup_app_l_Some |].
  rewrite Hclean. intros [= <- <- <-]. rewrite length_app. cbn [length].
  split; [lia |]. exists clean. split; [done |]. split; [| split].
  - apply lookup_app_l_Some. by apply list_lookup_middle.
  - apply list_lookup_middle. rewrite length_app. cbn [length]. lia.
  - by do 2 apply lookup_app_l_Some.
Qed.

Lemma X14_two_calls_witness :
  exists clean, clean_dataset albania = Ok clean /\
                [albania; cleaned albania; cleaned albania] !! 2%nat = Some clean.
Proof.
  destruct (X14_two_calls [albania] 0%nat albania 1%nat 2%nat
              [albania; cleaned albania; cleaned albania])
    as (_ & clean & H1 & _ & H2 & _); [reflexivity | vm_compute; reflexivity |].
  exists clean. split; [exact H1 | exact H2].
Defined.

(* ===================================================================== *)
(** ** Integers already there *)
(* ===================================================================== *)

(** X15.  The cleaning loses no integer a float holds exactly: where a
    column it converts ([suicides_no], [gdp_per_capita_$] or
    [gdp_for_year_$] once standardized) holds an integer of magnitude at most
    [2^53], the cleaned column holds that integer in the same row, as an
    integer or, when the column is one of floats, as the float of the same
    value. *)
Theorem X15_integers_kept (raw clean : DataFrame) (o : string) (vs : list cell)
    (i : nat) (z : Z) :
  clean_dataset raw = Ok clean ->
  (o, vs) ∈ data raw ->
  standardize o = "suicides_no" \/ standardize o = "gdp_per_capita_$" \/
  standardize o = "gdp_for_year_$" ->
  vs !! i = Some (VInt z) ->
  Z.abs z <= 2 ^ 53 ->
  exists vs',
    (pd.renamed [("gdp_per_capita_$", "gdp_per_capita")] (standardize o), vs') ∈ data clean /\
    (vs' !! i = Some (VInt z) \/ vs' !! i = Some (VFloat (Num.mk_float z 0))).
Proof.
  intros (-> & _)%clean_dataset_Ok Hin Ho Hi Hz.
  assert (Num.float_of_Z z = Num.mk_float z 0) as Hfl by (by rewrite float_of_Z_exact).
  assert (coerce_cell (VInt z) = VInt z) as Hco by (by apply coerce_cell_fixed).
  exists (clean_column (standardize o, vs)).2. split.
  - apply elem_of_cleaned. exists o, vs. split; [done |].
    split; [by destruct Ho as [-> | [-> | ->]] |]. done.
  - unfold clean_column. cbn [fst snd].
    assert (forall y, read_from (VInt z) y ->
                      y = VInt z \/ y = VFloat (Num.mk_float z 0)) as Hread.
    { intros y [-> | ->]; rewrite Hco; [by left | right]. cbn [pd.to_float]. by rewrite Hfl. }
    destruct Ho as [Ho | [Ho | Ho]]; rewrite Ho.
    + rewrite decide_True by (by left).
      destruct (Forall2_lookup_l _ _ _ _ _ (numeric_cells vs) Hi) as (y & -> & Hy).
      destruct (Hread y Hy) as [-> | ->]; [by left | by right].
    + rewrite decide_True by (by right).
      destruct (Forall2_lookup_l _ _ _ _ _ (numeric_cells vs) Hi) as (y & -> & Hy).
      destruct (Hread y Hy) as [-> | ->]; [by left | by right].
    + rewrite decide_False by (intros [? | ?]; done). rewrite decide_True by done.
      unfold currency.
      destruct (Forall2_lookup_l _ _ _ _ _ (numeric_map strip_currency vs) Hi)
        as (y & -> & Hy).
      assert (coerce_cell (strip_currency (VInt z)) = VInt z) as Hstr.
      { unfold strip_currency. cbn [str_of_cell]. rewrite replace_class_of_Z.
        apply coerce_cell_of_Z. pose proof limit_64. lia. }
      unfold read_from in Hy. rewrite Hstr in Hy.
      destruct Hy as [-> | ->]; [by left | right]. cbn [pd.to_float]. by rewrite Hfl.
Qed.

Lemma X15_integers_kept_witness :
  exists vs', ("gdp_per_capita", vs') ∈ data (cleaned two_columns) /\
              (vs' !! 0%nat = Some (VInt 796) \/
               vs' !! 0%nat = Some (VFloat (Num.mk_float 796 0))).
Proof.
  apply (X15_integers_kept two_columns (cleaned two_columns) "gdp_per_capita ($)"
           [VInt 796; VStr "1,5"] 0%nat 796).
  - vm_compute. reflexivity.
  - apply list_elem_of_further, list_elem_of_here.
  - right. left. reflexivity.
  - reflexivity.
  - vm_compute. discriminate.
Defined.
